(** * Season Radar: the scoring and ranking engine ([scoring.py])

    A shallow embedding of the four component scorers, of [rank_cities] and
    of [format_results_for_claude], followed by the properties the
    specification states about them.

    Modelling conventions.
    - Python [float] values are modelled as real numbers ([R]): arithmetic is
      exact, [math.exp] is the real exponential, [x ** y] the real power and
      [round(x, 4)] rounds the real [x] to the nearest multiple of 10^-4,
      ties to even.  NaN and infinities have no counterpart.
    - Python [int] values are [Z]; list indexing and slicing follow Python
      for negative indices.
    - Python [str] values are [string]s holding the UTF-8 bytes of the text.
      [lower] follows [str.lower] on ASCII, Latin-1 and the Greek letters
      U+0391..U+03C9, with the rule for the final sigma; characters of
      other scripts are left as they are.  [upper] folds the ASCII letters.
    - A [dict] read with [d.get(k, default)] is a record whose field is an
      [option]; a [dict] read with [d[k]] raises [KeyError] on [None].
    - Exceptions are values of [result]. *)

From Stdlib Require Import String Ascii DecimalString.
From Stdlib Require Import Reals Lra Lia ZArith NArith List Bool.
From Stdlib Require Import Sorting.Sorted Sorting.Permutation.
Import ListNotations.

Local Open Scope R_scope.

(** ** Python primitives *)

Module Py.

(** Comparisons of floats, as booleans. *)
Definition leb (x y : R) : bool := if Rle_dec x y then true else false.
Definition ltb (x y : R) : bool := if Rlt_dec x y then true else false.
Definition eqb (x y : R) : bool := if Req_dec_T x y then true else false.

(** Nearest integer, ties to even. *)
Definition half_even (x : R) : Z :=
  let f := Int_part x in
  let d := x - IZR f in
  if ltb d (1 / 2) then f
  else if ltb (1 / 2) d then (f + 1)%Z
  else if Z.even f then f else (f + 1)%Z.

(** [round(x, ndigits)] *)
Definition round (x : R) (ndigits : nat) : R :=
  let scale := IZR (10 ^ Z.of_nat ndigits) in
  IZR (half_even (x * scale)) / scale.

(** [x ** y] for a base [0 <= x]: [0 ** y] is [0] for [0 < y] and
    [0 ** 0] is [1].  (A negative base with a fractional exponent gives a
    complex number in Python; [score_precipitation] clamps its base at 0
    before the call, see [precip_base_nonneg].) *)
Definition pow (x y : R) : R :=
  if eqb x 0 then (if eqb y 0 then 1 else 0) else Rpower x y.

(** Exceptions. *)
Inductive exn : Type := IndexError | KeyError.

Inductive result (A : Type) : Type :=
| Ok (a : A)
| Raise (e : exn).
Arguments Ok {A} a.
Arguments Raise {A} e.

Definition bind {A B : Type} (m : result A) (k : A -> result B) : result B :=
  match m with
  | Ok a => k a
  | Raise e => Raise e
  end.

(** [l[i]]: a negative index counts from the end. *)
Definition index {A : Type} (l : list A) (i : Z) : result A :=
  let n := Z.of_nat (length l) in
  let j := if (i <? 0)%Z then (i + n)%Z else i in
  if (j <? 0)%Z then Raise IndexError
  else match nth_error l (Z.to_nat j) with
       | Some a => Ok a
       | None => Raise IndexError
       end.

(** [l[:n]]: a negative bound counts from the end, and bounds are clipped. *)
Definition slice_to {A : Type} (l : list A) (n : Z) : list A :=
  let len := Z.of_nat (length l) in
  let stop := if (n <? 0)%Z then Z.max 0 (n + len) else Z.min n len in
  firstn (Z.to_nat stop) l.

(** [d.get(k, default)] and [d[k]] *)
Definition get {A : Type} (field : option A) (default : A) : A :=
  match field with
  | Some a => a
  | None => default
  end.

Definition item {A : Type} (field : option A) : result A :=
  match field with
  | Some a => Ok a
  | None => Raise KeyError
  end.

(** [x in l] for a list of integers *)
Definition mem (x : Z) (l : list Z) : bool := existsb (Z.eqb x) l.

(** [str.lower], [str.upper] *)
Definition lower_ascii (c : ascii) : ascii :=
  let n := nat_of_ascii c in
  if (65 <=? n)%nat && (n <=? 90)%nat then ascii_of_nat (n + 32) else c.

(** Code points of two-byte UTF-8 sequences (U+0080..U+07FF). *)
Definition between (lo hi n : N) : bool := (lo <=? n)%N && (n <=? hi)%N.
Definition is_lead2 (n : N) : bool := between 194 223 n.
Definition is_continuation (n : N) : bool := between 128 191 n.
Definition code2 (c d : N) : N := ((c - 192) * 64 + (d - 128))%N.
Definition encode2 (code : N) : string :=
  String (ascii_of_N (192 + code / 64))
    (String (ascii_of_N (128 + code mod 64)) EmptyString).

(** The lower-case mapping above ASCII: Latin-1 capitals (U+00C0..U+00DE
    without the multiplication sign) and Greek capitals (U+0391..U+03AB). *)
Definition lower_code (code : N) : N :=
  if between 192 222 code && negb (code =? 215)%N then (code + 32)%N
  else if between 913 939 code && negb (code =? 930)%N then (code + 32)%N
  else code.

(** The Unicode properties Cased and Case_Ignorable, up to U+00FF and on
    the Greek letters. *)
Definition is_cased (code : N) : bool :=
  between 65 90 code || between 97 122 code
  || (code =? 170)%N || (code =? 181)%N || (code =? 186)%N
  || between 192 214 code || between 216 246 code || between 248 255 code
  || between 913 929 code || between 931 969 code.

Definition is_case_ignorable (code : N) : bool :=
  existsb (N.eqb code) [39; 46; 58; 94; 96; 168; 173; 175; 180; 183; 184]%N.

Definition capital_sigma : N := 931.
Definition small_sigma : string := encode2 963.
Definition final_sigma : string := encode2 962.

(** After a capital sigma: is the next character that is not
    case-ignorable a cased one? *)
Fixpoint cased_follows (s : string) : bool :=
  match s with
  | EmptyString => false
  | String c rest =>
    let n := N_of_ascii c in
    if (n <? 128)%N then
      if is_case_ignorable n then cased_follows rest else is_cased n
    else
      match rest with
      | String d rest' =>
        if is_lead2 n && is_continuation (N_of_ascii d) then
          let code := code2 n (N_of_ascii d) in
          if is_case_ignorable code then cased_follows rest' else is_cased code
        else false
      | EmptyString => false
      end
  end.

(** [lower_from before s]: the lower case of [s]; [before] tells whether
    the last character before [s] that is not case-ignorable is cased.  A
    capital sigma becomes a final sigma when a cased letter precedes it and
    none follows it. *)
Fixpoint lower_from (before : bool) (s : string) : string :=
  match s with
  | EmptyString => EmptyString
  | String c rest =>
    let n := N_of_ascii c in
    if (n <? 128)%N then
      String (lower_ascii c)
        (lower_from (if is_case_ignorable n then before else is_cased n) rest)
    else
      match rest with
      | String d rest' =>
        if is_lead2 n && is_continuation (N_of_ascii d) then
          let code := code2 n (N_of_ascii d) in
          if (code =? capital_sigma)%N then
            ((if before && negb (cased_follows rest') then final_sigma
              else small_sigma)
             ++ lower_from true rest')%string
          else
            (encode2 (lower_code code)
             ++ lower_from (if is_case_ignorable code then before
                            else is_cased code) rest')%string
        else String c (lower_from false rest)
      | EmptyString => String c EmptyString
      end
  end.

Definition upper_ascii (c : ascii) : ascii :=
  let n := nat_of_ascii c in
  if (97 <=? n)%nat && (n <=? 122)%nat then ascii_of_nat (n - 32) else c.

Definition lower (s : string) : string := lower_from false s.

Fixpoint upper (s : string) : string :=
  match s with
  | EmptyString => EmptyString
  | String c s' => String (upper_ascii c) (upper s')
  end.

(** [s in t] for strings: [s] occurs in [t] as a contiguous substring. *)
Fixpoint str_in (s t : string) : bool :=
  String.prefix s t ||
  match t with
  | EmptyString => false
  | String _ t' => str_in s t'
  end.

(** [sep.join(l)] *)
Fixpoint join (sep : string) (l : list string) : string :=
  match l with
  | [] => EmptyString
  | [x] => x
  | x :: rest => (x ++ sep ++ join sep rest)%string
  end.

End Py.

Notation "x <- m ;; k" := (Py.bind m (fun x => k))
  (at level 61, m at next level, right associativity).

(** ** Component scorers *)

Definition score_temperature (city_temp : R) (temp_min temp_max : option R) : R :=
  match temp_min, temp_max with
  | None, None => 0.65
  | _, _ =>
    let temp_min0 := Py.get temp_min (city_temp - 10) in
    let temp_max0 := Py.get temp_max (city_temp + 10) in
    let temp_min' := Rmin temp_min0 temp_max0 in
    let temp_max' := Rmax temp_min0 temp_max0 in
    if Py.leb temp_min' city_temp && Py.leb city_temp temp_max' then
      let mid := (temp_min' + temp_max') / 2 in
      let half_range := Rmax ((temp_max' - temp_min') / 2) 1 in
      let closeness := 1.0 - 0.15 * Rabs (city_temp - mid) / half_range in
      Py.round (Rmax 0.85 closeness) 4
    else
      let gap := Rmax (temp_min' - city_temp) (city_temp - temp_max') in
      let sigma := Rmax ((temp_max' - temp_min') / 2) 3 in
      let score := exp (- 0.5 * (gap / sigma) ^ 2) in
      Py.round (Rmax 0.0 score) 4
  end.

Definition precip_base (monthly_precip : R) : R :=
  Rmax 0.0 (1.0 - monthly_precip / 300.0).

Definition score_precipitation (monthly_precip : R) (rain_tolerance : string) : R :=
  let base := precip_base monthly_precip in
  if String.eqb rain_tolerance "low" then
    Py.round (Py.pow base 0.6) 4
  else if String.eqb rain_tolerance "high" then
    Py.round (0.5 + base * 0.5) 4
  else
    Py.round base 4.

Inductive season : Type := peak | shoulder | off.

Definition classify (month : Z) (peak_months shoulder_months : list Z) : season :=
  if Py.mem month peak_months then peak
  else if Py.mem month shoulder_months then shoulder
  else off.

(** The rows of [table]; each row is a dict keyed by the season. *)
Definition row_off_peak (s : season) : R :=
  match s with off => 1.0 | shoulder => 0.55 | peak => 0.05 end.
Definition row_shoulder (s : season) : R :=
  match s with shoulder => 1.0 | off => 0.7 | peak => 0.25 end.
Definition row_any (s : season) : R :=
  match s with shoulder => 1.0 | off => 0.85 | peak => 0.75 end.

(** [table.get(crowd_preference, table["any"])] *)
Definition table_get (crowd_preference : string) : season -> R :=
  if String.eqb crowd_preference "off_peak" then row_off_peak
  else if String.eqb crowd_preference "shoulder" then row_shoulder
  else if String.eqb crowd_preference "any" then row_any
  else row_any.

Definition score_crowd (month : Z) (peak_months shoulder_months : list Z)
    (crowd_preference : string) : R :=
  let season := classify month peak_months shoulder_months in
  table_get crowd_preference season.

Definition is_empty {A : Type} (l : list A) : bool :=
  match l with [] => true | _ => false end.

Definition tag_matches (city_tags_l : list string) (pt : string) : bool :=
  existsb (String.eqb pt) city_tags_l
  || existsb (fun ct => Py.str_in pt ct || Py.str_in ct pt) city_tags_l.

Definition score_tags (city_tags preferred_tags : list string) : R :=
  if is_empty preferred_tags then 0.65
  else if is_empty city_tags then 0.2
  else
    let city_tags_l := map Py.lower city_tags in
    let preferred_tags_l := map Py.lower preferred_tags in
    let matches := length (filter (tag_matches city_tags_l) preferred_tags_l) in
    Py.round (Rmin 1.0 (INR matches / INR (length preferred_tags_l))) 4.

(** ** Data model *)

(** A city of the catalog: a [dict] loaded from the data set. *)
Module City.
Record t : Type := mk {
  name : option string;
  country : option string;
  region : option string;
  monthly_temp : option (list R);
  monthly_precip : option (list R);
  peak_months : option (list Z);
  shoulder_months : option (list Z);
  tags : option (list string)
}.
End City.

(** The preference record: the tool input, a [dict]. *)
Module Prefs.
Record t : Type := mk {
  travel_month : option Z;
  temp_min : option R;
  temp_max : option R;
  rain_tolerance : option string;
  crowd_preference : option string;
  environment_tags : option (list string);
  exclude_regions : option (list string);
  num_results : option Z
}.
End Prefs.

Module Scores.
Record t : Type := mk { temp : R; rain : R; crowd : R; tags : R; final : R }.
End Scores.

Module MonthData.
Record t : Type := mk { temp : R; precip : R; season : string }.
End MonthData.

(** One entry of the list [rank_cities] returns. *)
Module Candidate.
Record t : Type := mk {
  city : City.t;
  scores : Scores.t;
  month_data : MonthData.t
}.
End Candidate.

(** ** The ranking function *)

Definition W_TEMP : R := 0.40.
Definition W_RAIN : R := 0.30.
Definition W_CROWD : R := 0.20.
Definition W_TAGS : R := 0.10.

Definition month_0 (preferences : Prefs.t) : Z :=
  (Py.get (Prefs.travel_month preferences) 1 - 1)%Z.

Definition exclude (preferences : Prefs.t) : list string :=
  map Py.lower (Py.get (Prefs.exclude_regions preferences) []).

(** The condition of the exclusion filter, on the lower-cased terms [exclude]. *)
Definition excluded (exclude : list string) (city : City.t) : bool :=
  let region := Py.lower (Py.get (City.region city) ""%string) in
  let country := Py.lower (Py.get (City.country city) ""%string) in
  existsb (fun ex => Py.str_in ex region || Py.str_in ex country) exclude.

Definition season_label (m : Z) (peak_months shoulder_months : list Z) : string :=
  if Py.mem m peak_months then "peak season"
  else if Py.mem m shoulder_months then "shoulder season"
  else "off season".

(** The body of the loop of [rank_cities] for a city that passed the filter. *)
Definition score_city (preferences : Prefs.t) (city : City.t) : Py.result Candidate.t :=
  let month_0 := month_0 preferences in
  let temp_min := Prefs.temp_min preferences in
  let temp_max := Prefs.temp_max preferences in
  let rain_tolerance := Py.get (Prefs.rain_tolerance preferences) "medium"%string in
  let crowd_pref := Py.get (Prefs.crowd_preference preferences) "any"%string in
  let pref_tags := Py.get (Prefs.environment_tags preferences) [] in
  temps <- Py.item (City.monthly_temp city) ;;
  city_temp <- Py.index temps month_0 ;;
  precips <- Py.item (City.monthly_precip city) ;;
  city_precip <- Py.index precips month_0 ;;
  let peak_months := Py.get (City.peak_months city) [] in
  let shoulder_months := Py.get (City.shoulder_months city) [] in
  let t_score := score_temperature city_temp temp_min temp_max in
  let r_score := score_precipitation city_precip rain_tolerance in
  let c_score := score_crowd (month_0 + 1) peak_months shoulder_months crowd_pref in
  let g_score := score_tags (Py.get (City.tags city) []) pref_tags in
  let final :=
    Py.round (W_TEMP * t_score + W_RAIN * r_score + W_CROWD * c_score
              + W_TAGS * g_score) 4 in
  let m := (month_0 + 1)%Z in
  let season_label := season_label m peak_months shoulder_months in
  Py.Ok (Candidate.mk city
           (Scores.mk t_score r_score c_score g_score final)
           (MonthData.mk city_temp city_precip season_label)).

(** The [for city in cities] loop: the list [results] it builds, or the
    first exception. *)
Fixpoint rank_loop (preferences : Prefs.t) (cities : list City.t)
    : Py.result (list Candidate.t) :=
  match cities with
  | [] => Py.Ok []
  | city :: rest =>
    if excluded (exclude preferences) city then rank_loop preferences rest
    else
      r <- score_city preferences city ;;
      results <- rank_loop preferences rest ;;
      Py.Ok (r :: results)
  end.

(** [list.sort(key=..., reverse=True)]: the stable sort by decreasing key.
    An element is inserted in front of the first element whose key is not
    greater than its own, so elements of equal key keep their order.  The
    result of a stable sort does not depend on the algorithm
    ([sort_reverse_unique]). *)
Fixpoint insert_reverse {A : Type} (key : A -> R) (x : A) (l : list A) : list A :=
  match l with
  | [] => [x]
  | y :: l' =>
    if Py.ltb (key x) (key y) then y :: insert_reverse key x l'
    else x :: y :: l'
  end.

Definition sort_reverse {A : Type} (key : A -> R) (l : list A) : list A :=
  fold_right (insert_reverse key) [] l.

Definition final_of (x : Candidate.t) : R := Scores.final (Candidate.scores x).

Definition rank_cities (cities : list City.t) (preferences : Prefs.t) (top_n : Z)
    : Py.result (list Candidate.t) :=
  let num_results := Py.get (Prefs.num_results preferences) top_n in
  results <- rank_loop preferences cities ;;
  Py.Ok (Py.slice_to (sort_reverse final_of results) num_results).

(** The default of the parameter [top_n]. *)
Definition top_n_default : Z := 8.

(** ** The formatter *)

Section Format.

(** The two float renderings of the f-strings: the format [:.2f] and the
    plain [str] of a number.  They are functions of Python's run time. *)
Variable format_2f : R -> string.
Variable str_num : R -> string.

Local Open Scope string_scope.

Definition str_int (i : nat) : string := NilZero.string_of_uint (Nat.to_uint i).

Definition newline : string := String (ascii_of_nat 10) EmptyString.

(** The five lines appended for the [i]-th result. *)
Definition format_entry (i : nat) (result : Candidate.t) : Py.result (list string) :=
  let city := Candidate.city result in
  let scores := Candidate.scores result in
  let month_data := Candidate.month_data result in
  name <- Py.item (City.name city) ;;
  country <- Py.item (City.country city) ;;
  Py.Ok
    [ str_int i ++ ". " ++ name ++ ", " ++ country ++ "  "
        ++ "[Score: " ++ format_2f (Scores.final scores) ++ "]";
      "   Avg temp: " ++ str_num (MonthData.temp month_data) ++ "°C | "
        ++ "Precipitation: " ++ str_num (MonthData.precip month_data) ++ "mm | "
        ++ "Status: " ++ MonthData.season month_data;
      "   Score breakdown — temp:" ++ format_2f (Scores.temp scores) ++ "  "
        ++ "rain:" ++ format_2f (Scores.rain scores)
        ++ "  crowd:" ++ format_2f (Scores.crowd scores) ++ "  "
        ++ "tags:" ++ format_2f (Scores.tags scores);
      "   Tags: " ++ Py.join ", " (Py.get (City.tags city) []);
      "" ].

(** [for i, result in enumerate(ranked_results, i)] *)
Fixpoint format_loop (i : nat) (ranked_results : list Candidate.t)
    : Py.result (list string) :=
  match ranked_results with
  | [] => Py.Ok []
  | result :: rest =>
    block <- format_entry i result ;;
    blocks <- format_loop (S i) rest ;;
    Py.Ok (block ++ blocks)%list
  end.

Definition format_results_for_claude (ranked_results : list Candidate.t)
    (month_name : string) : Py.result string :=
  if is_empty ranked_results then
    Py.Ok ("[No destinations matched the criteria for " ++ month_name
           ++ ". Suggest broadening preferences.]")
  else
    blocks <- format_loop 1 ranked_results ;;
    let header := "[DATASET: TOP DESTINATIONS FOR " ++ Py.upper month_name ++ "]" in
    let instruction :=
      "[INSTRUCTION: Use the data above to explain your recommendations. "
      ++ "Cite actual temperatures and crowd status. "
      ++ "Do NOT invent data not shown above.]" in
    let lines := ([header; ""] ++ blocks ++ [instruction])%list in
    Py.Ok (Py.join newline lines).

End Format.

(** ** Tool execution ([main.py], [app.py]) *)

Definition MONTH_NAMES : list string :=
  ["January"; "February"; "March"; "April"; "May"; "June";
   "July"; "August"; "September"; "October"; "November"; "December"]%string.

(** ** Messages of the conversation *)

(** A content block of a response: a text block, a tool call, or a block
    of another type (thinking, ...), which has no [text]. *)
Inductive block : Type :=
| TextBlock (text : string)
| ToolUseBlock (id name : string) (input : Prefs.t)
| OtherBlock (type : string).

Record response : Type := mk_response {
  content : list block;
  stop_reason : string
}.

Record tool_result : Type := mk_tool_result {
  tool_use_id : string;
  result_content : string
}.

(** The [content] of a message of the conversation. *)
Inductive message_content : Type :=
| UserText (text : string)
| AssistantBlocks (blocks : list block)
| ToolResults (results : list tool_result).

Record message : Type := mk_message {
  role : string;
  message_content_of : message_content
}.

(** What a turn ends with: the returned text, an exception of the tool
    code, or an exception of the API client. *)
Inductive outcome (api_exn : Type) : Type :=
| Returned (text : string)
| Raised (e : Py.exn)
| ApiFailed (e : api_exn).
Arguments Returned {api_exn} text.
Arguments Raised {api_exn} e.
Arguments ApiFailed {api_exn} e.

Section Search.

(** The catalog loaded from [data/cities.json] and the month of
    [datetime.now()], both read once when the module is loaded. *)
Variable CITIES : list City.t.
Variable CURRENT_MONTH : Z.
Variable format_2f : R -> string.
Variable str_num : R -> string.

Definition execute_search (tool_input : Prefs.t) : Py.result string :=
  let month := Py.get (Prefs.travel_month tool_input) CURRENT_MONTH in
  month_name <- Py.index MONTH_NAMES (month - 1) ;;
  ranked <- rank_cities CITIES tool_input top_n_default ;;
  format_results_for_claude format_2f str_num ranked month_name.

Definition process_tool_call (name : string) (tool_input : Prefs.t)
    : Py.result string :=
  if String.eqb name "search_destinations" then execute_search tool_input
  else Py.Ok ("[Unknown tool: " ++ name ++ "]")%string.

(** ** The agentic loop *)

(** The API call [client.messages.stream(...).get_final_message()] on a
    conversation: a response, or an exception of the client. *)
Variable api_exn : Type.
Variable stream : list message -> response + api_exn.

(** The text returned at [end_turn]: the text blocks, concatenated. *)
Fixpoint response_text (blocks : list block) : string :=
  match blocks with
  | [] => EmptyString
  | TextBlock text :: rest => (text ++ response_text rest)%string
  | _ :: rest => response_text rest
  end.

(** The loop over the blocks of a [tool_use] response. *)
Fixpoint run_tools (blocks : list block) : Py.result (list tool_result) :=
  match blocks with
  | [] => Py.Ok []
  | ToolUseBlock id name input :: rest =>
    result <- process_tool_call name input ;;
    tool_results <- run_tools rest ;;
    Py.Ok (mk_tool_result id result :: tool_results)
  | _ :: rest => run_tools rest
  end.

Definition MAX_ITERATIONS : nat := 6.

(** [iterations] rounds of the [for] loop of [run_agentic_turn].  The list
    [conversation] is mutated in place: the first component is its value
    when the function returns or raises. *)
Fixpoint agentic_loop (limit_message : string) (iterations : nat)
    (conversation : list message) : list message * outcome api_exn :=
  match iterations with
  | O => (conversation, Returned limit_message)
  | S iterations' =>
    match stream conversation with
    | inr e => (conversation, ApiFailed e)
    | inl response =>
      let conversation :=
        (conversation
         ++ [mk_message "assistant" (AssistantBlocks (content response))])%list in
      if String.eqb (stop_reason response) "end_turn" then
        (conversation, Returned (response_text (content response)))
      else if String.eqb (stop_reason response) "tool_use" then
        match run_tools (content response) with
        | Py.Raise e => (conversation, Raised e)
        | Py.Ok tool_results =>
          agentic_loop limit_message iterations'
            (conversation ++ [mk_message "user" (ToolResults tool_results)])%list
        end
      else agentic_loop limit_message iterations' conversation
    end
  end.

(** [run_agentic_turn] of [main.py] and of [app.py]: they differ in the
    text returned when the loop runs out. *)
Definition run_agentic_turn (conversation : list message)
    : list message * outcome api_exn :=
  agentic_loop "[Season Radar hit an iteration limit. Please try again.]"
    MAX_ITERATIONS conversation.

Definition run_agentic_turn_app (conversation : list message)
    : list message * outcome api_exn :=
  agentic_loop "Sorry, I hit an internal limit. Please try rephrasing your question."
    MAX_ITERATIONS conversation.

End Search.

(** ** Vocabulary of the properties *)

(** The two branches of [score_temperature] once the bounds are in order. *)
Definition in_range_score (city_temp lo hi : R) : R :=
  Py.round
    (Rmax 0.85
       (1.0 - 0.15 * Rabs (city_temp - (lo + hi) / 2) / Rmax ((hi - lo) / 2) 1)) 4.

Definition out_of_range_score (city_temp lo hi : R) : R :=
  Py.round
    (Rmax 0.0
       (exp (- 0.5 * (Rmax (lo - city_temp) (city_temp - hi)
                      / Rmax ((hi - lo) / 2) 3) ^ 2))) 4.

(** The city passes the exclusion filter: the loop does not [continue]. *)
Definition survives (preferences : Prefs.t) (city : City.t) : bool :=
  negb (excluded (exclude preferences) city).

(** [descending key l]: every element's key is at least the key of each
    later one. *)
Definition descending {A : Type} (key : A -> R) (l : list A) : Prop :=
  StronglySorted (fun a b => key b <= key a) l.

(** The elements of [l] whose key equals [v], in the order of [l]. *)
Definition with_key {A : Type} (key : A -> R) (v : R) (l : list A) : list A :=
  filter (fun a => Py.eqb (key a) v) l.

(** The invariant of the data model: both monthly arrays are present and
    have 12 entries. *)
Definition wf_city (city : City.t) : Prop :=
  exists temps precips,
    City.monthly_temp city = Some temps /\
    City.monthly_precip city = Some precips /\
    length temps = 12%nat /\ length precips = 12%nat.

Definition unit_interval (s : R) : Prop := 0 <= s <= 1.

(** The candidate [x] of [city] is built from the twelfth (December)
    entries of the city's two monthly arrays. *)
Definition scored_from_december (preferences : Prefs.t) (city : City.t)
    (x : Candidate.t) : Prop :=
  exists temps precips december_temp december_precip,
    City.monthly_temp city = Some temps /\
    City.monthly_precip city = Some precips /\
    nth_error temps 11 = Some december_temp /\
    nth_error precips 11 = Some december_precip /\
    Candidate.city x = city /\
    MonthData.temp (Candidate.month_data x) = december_temp /\
    MonthData.precip (Candidate.month_data x) = december_precip /\
    Scores.temp (Candidate.scores x)
      = score_temperature december_temp (Prefs.temp_min preferences)
          (Prefs.temp_max preferences) /\
    Scores.rain (Candidate.scores x)
      = score_precipitation december_precip
          (Py.get (Prefs.rain_tolerance preferences) "medium"%string).





(** The text returned for an empty ranking. *)
Definition no_match_message (month_name : string) : string :=
  ("[No destinations matched the criteria for " ++ month_name
   ++ ". Suggest broadening preferences.]")%string.

(** The index [i] is inside the list [l], counting from either end. *)
Definition index_ok {A : Type} (l : list A) (i : Z) : Prop :=
  (- Z.of_nat (length l) <= i < Z.of_nat (length l))%Z.

(** The loop body can score the city: both monthly arrays are present and
    the month index is inside both. *)
Definition scorable (preferences : Prefs.t) (city : City.t) : Prop :=
  exists temps precips,
    City.monthly_temp city = Some temps /\
    City.monthly_precip city = Some precips /\
    index_ok temps (month_0 preferences) /\
    index_ok precips (month_0 preferences).

(** A number with at most four decimal places. *)
Definition four_decimals (v : R) : Prop := exists k : Z, v = IZR k / 10000.

(** The preference record with the key [num_results] set to [n], and with
    the key [exclude_regions] removed. *)
Definition with_num_results (preferences : Prefs.t) (n : Z) : Prefs.t :=
  Prefs.mk (Prefs.travel_month preferences) (Prefs.temp_min preferences)
    (Prefs.temp_max preferences) (Prefs.rain_tolerance preferences)
    (Prefs.crowd_preference preferences) (Prefs.environment_tags preferences)
    (Prefs.exclude_regions preferences) (Some n).

Definition without_exclusions (preferences : Prefs.t) : Prefs.t :=
  Prefs.mk (Prefs.travel_month preferences) (Prefs.temp_min preferences)
    (Prefs.temp_max preferences) (Prefs.rain_tolerance preferences)
    (Prefs.crowd_preference preferences) (Prefs.environment_tags preferences)
    None (Prefs.num_results preferences).

(** The candidate's city passes the exclusion filter of [preferences]. *)
Definition candidate_survives (preferences : Prefs.t) (x : Candidate.t) : bool :=
  survives preferences (Candidate.city x).

(** The formatter can print the candidate: its city has the keys [name]
    and [country]. *)
Definition printable (x : Candidate.t) : Prop :=
  City.name (Candidate.city x) <> None /\ City.country (Candidate.city x) <> None.

(** The first line of the block of the candidate ranked [i]. *)
Definition headline (format_2f : R -> string) (i : nat) (x : Candidate.t)
    (name country : string) : string :=
  (str_int i ++ ". " ++ name ++ ", " ++ country ++ "  "
   ++ "[Score: " ++ format_2f (Scores.final (Candidate.scores x)) ++ "]")%string.

Definition is_tool_use (b : block) : bool :=
  match b with ToolUseBlock _ _ _ => true | _ => false end.

(** What one run of the loop body may append. *)
Definition appended_by_turn (m : message) : Prop :=
  (role m = "assistant"%string /\ exists blocks, message_content_of m = AssistantBlocks blocks) \/
  (role m = "user"%string /\ exists results, message_content_of m = ToolResults results).

(** ** Sample data *)

Definition oslo : City.t :=
  City.mk (Some "Oslo"%string) (Some "Norway"%string) (Some "Europe"%string)
    (Some [5; 6; 9; 12; 16; 19; 21; 20; 16; 11; 7; 4])
    (Some [50; 40; 50; 40; 50; 70; 80; 90; 80; 80; 70; 60])
    (Some [1%Z; 7%Z; 8%Z]) (Some [5%Z; 6%Z; 9%Z])
    (Some ["city"%string; "nature"%string]).

Definition bangkok : City.t :=
  City.mk (Some "Bangkok"%string) (Some "Thailand"%string)
    (Some "Southeast Asia"%string)
    (Some [30; 31; 32; 33; 32; 31; 31; 30; 30; 30; 30; 29])
    (Some [10; 30; 30; 70; 190; 150; 160; 190; 320; 230; 60; 10])
    (Some [11%Z; 12%Z; 2%Z]) (Some [3%Z; 10%Z])
    (Some ["city"%string; "food"%string; "cultural"%string]).

Definition lisbon : City.t :=
  City.mk (Some "Lisbon"%string) (Some "Portugal"%string) (Some "Europe"%string)
    (Some [15; 16; 18; 19; 22; 25; 28; 28; 26; 22; 18; 15])
    (Some [100; 80; 50; 60; 50; 20; 5; 5; 30; 100; 110; 110])
    (Some [7%Z; 8%Z]) (Some [1%Z; 5%Z; 6%Z; 9%Z])
    (Some ["city"%string; "coastal"%string; "history"%string]).

Definition catalog : list City.t := [oslo; bangkok; lisbon].

Definition january_prefs : Prefs.t :=
  Prefs.mk (Some 1%Z) (Some 20) (Some 35) None (Some "off_peak"%string)
    None (Some ["europe"%string]) None.


Definition no_prefs : Prefs.t :=
  Prefs.mk (Some 1%Z) None None None (Some "any"%string) None None None.

Definition month_zero_prefs : Prefs.t :=
  Prefs.mk (Some 0%Z) None None None (Some "any"%string) None None None.




(** A rendering of floats that prints nothing, to instantiate the formatter. *)
Definition blank (_ : R) : string := ""%string.

(** What [rank_cities] returns for Bangkok in January under
    [january_prefs]. *)
Definition bangkok_in_january : Candidate.t :=
  Candidate.mk bangkok
    (Scores.mk 0.95 0.9667 1.0 0.65 0.935)
    (MonthData.mk 30 10 "off season"%string).

Definition month_13_prefs : Prefs.t :=
  Prefs.mk (Some 13%Z) None None None (Some "any"%string) None None None.

(** A catalog entry with the climate data but without name and country. *)
Definition nameless_city : City.t :=
  City.mk None None (Some "Europe"%string)
    (Some [5; 6; 9; 12; 16; 19; 21; 20; 16; 11; 7; 4])
    (Some [50; 40; 50; 40; 50; 70; 80; 90; 80; 80; 70; 60])
    None None None.

(** A tool input without [travel_month]. *)
Definition no_month_prefs : Prefs.t :=
  Prefs.mk None None None None (Some "any"%string) None None None.

(** A conversation that has just begun, and three scripted API clients:
    one whose answers are always cut off (and carry a tool call that is
    never run), one that calls the search tool
    with month 13, one that calls a tool that does not exist. *)
Definition opening : list message :=
  [mk_message "user" (UserText "Where is spring right now?")].



Definition month_13_stream (_ : list message) : response + unit :=
  inl (mk_response
         [TextBlock "Searching."; ToolUseBlock "toolu_1" "search_destinations" month_13_prefs]
         "tool_use").

Definition unknown_tool_blocks : list block :=
  [TextBlock "Let me look."; ToolUseBlock "toolu_1" "get_weather" no_prefs;
   OtherBlock "thinking"].

(** What [rank_cities] computes for the three cities of the catalog in
    January under [no_prefs]: Oslo and Lisbon get the same final score. *)
Definition oslo_any : Candidate.t :=
  Candidate.mk oslo (Scores.mk 0.65 0.8333 0.75 0.65 0.725)
    (MonthData.mk 5 50 "peak season"%string).

Definition bangkok_any : Candidate.t :=
  Candidate.mk bangkok (Scores.mk 0.65 0.9667 0.85 0.65 0.785)
    (MonthData.mk 30 10 "off season"%string).

Definition lisbon_any : Candidate.t :=
  Candidate.mk lisbon (Scores.mk 0.65 0.6667 1.0 0.65 0.725)
    (MonthData.mk 15 100 "shoulder season"%string).

(** * Properties *)

(** ** Rounding *)

Lemma leb_true (x y : R) : Py.leb x y = true <-> x <= y.
Proof. unfold Py.leb. destruct (Rle_dec x y); split; intros; auto; discriminate. Qed.

Lemma leb_false (x y : R) : Py.leb x y = false <-> y < x.
Proof.
  unfold Py.leb. destruct (Rle_dec x y); split; intros; auto; try discriminate; lra.
Qed.

Lemma ltb_true (x y : R) : Py.ltb x y = true <-> x < y.
Proof. unfold Py.ltb. destruct (Rlt_dec x y); split; intros; auto; discriminate. Qed.

Lemma ltb_false (x y : R) : Py.ltb x y = false <-> y <= x.
Proof.
  unfold Py.ltb. destruct (Rlt_dec x y); split; intros; auto; try discriminate; lra.
Qed.

Lemma floor_bounds (x : R) : IZR (Int_part x) <= x < IZR (Int_part x) + 1.
Proof. destruct (base_Int_part x). lra. Qed.

Lemma floor_unique (x : R) (k : Z) : IZR k <= x < IZR k + 1 -> Int_part x = k.
Proof.
  intros [H1 H2]. destruct (floor_bounds x) as [H3 H4].
  assert (IZR (Int_part x) < IZR (k + 1)) by (rewrite plus_IZR; lra).
  assert (IZR k < IZR (Int_part x + 1)) by (rewrite plus_IZR; lra).
  apply lt_IZR in H, H0. lia.
Qed.

Lemma floor_mono (x y : R) : x <= y -> (Int_part x <= Int_part y)%Z.
Proof.
  intros H. destruct (floor_bounds x), (floor_bounds y).
  assert (IZR (Int_part x) < IZR (Int_part y + 1)) by (rewrite plus_IZR; lra).
  apply lt_IZR in H4. lia.
Qed.

Lemma half_even_bounds (x : R) :
  (Int_part x <= Py.half_even x <= Int_part x + 1)%Z.
Proof.
  unfold Py.half_even.
  destruct (Py.ltb _ _); [lia|]. destruct (Py.ltb _ _); [lia|].
  destruct (Z.even _); lia.
Qed.

Lemma half_even_IZR (k : Z) : Py.half_even (IZR k) = k.
Proof.
  unfold Py.half_even. rewrite (floor_unique (IZR k) k) by lra.
  replace (Py.ltb (IZR k - IZR k) (1 / 2)) with true; [reflexivity|].
  symmetry. apply ltb_true. lra.
Qed.

Lemma half_even_mono (x y : R) : x <= y -> (Py.half_even x <= Py.half_even y)%Z.
Proof.
  intros H. pose proof (floor_mono x y H) as Hf.
  destruct (Z.eq_dec (Int_part x) (Int_part y)) as [E|N].
  - unfold Py.half_even. rewrite E. set (f := Int_part y).
    destruct (Py.ltb (x - IZR f) (1 / 2)) eqn:A1;
      destruct (Py.ltb (y - IZR f) (1 / 2)) eqn:B1;
      destruct (Py.ltb (1 / 2) (x - IZR f)) eqn:A2;
      destruct (Py.ltb (1 / 2) (y - IZR f)) eqn:B2;
      try lia; try (destruct (Z.even f); lia);
      rewrite ?ltb_true, ?ltb_false in *; lra.
  - pose proof (half_even_bounds x). pose proof (half_even_bounds y). lia.
Qed.

Lemma round_mono (x y : R) (n : nat) : x <= y -> Py.round x n <= Py.round y n.
Proof.
  intros H. unfold Py.round.
  assert (Hs : 0 < IZR (10 ^ Z.of_nat n)).
  { apply IZR_lt. apply Z.pow_pos_nonneg; lia. }
  apply Rmult_le_compat_r; [left; apply Rinv_0_lt_compat; exact Hs|].
  apply IZR_le, half_even_mono. nra.
Qed.

Lemma round4_exact (k : Z) : Py.round (IZR k / 10000) 4 = IZR k / 10000.
Proof.
  unfold Py.round. change (10 ^ Z.of_nat 4)%Z with 10000%Z.
  replace (IZR k / 10000 * 10000) with (IZR k) by (field; lra).
  now rewrite half_even_IZR.
Qed.

Lemma round4_0 : Py.round 0 4 = 0.
Proof. replace 0 with (IZR 0 / 10000) by lra. apply round4_exact. Qed.

Lemma round4_1 : Py.round 1 4 = 1.
Proof. replace 1 with (IZR 10000 / 10000) by lra. apply round4_exact. Qed.

Lemma round4_unit (x : R) : 0 <= x <= 1 -> 0 <= Py.round x 4 <= 1.
Proof.
  intros [H0 H1]. split.
  - rewrite <- round4_0. now apply round_mono.
  - rewrite <- round4_1. now apply round_mono.
Qed.

(** ** Temperature scorer without bounds *)

(** C7. With [temp_min] and [temp_max] both absent, [score_temperature]
    returns exactly 0.65, whatever the city temperature is. *)
Theorem score_temperature_no_bounds (city_temp : R) :
  score_temperature city_temp None None = 0.65.
Proof. reflexivity. Qed.

(** ** Crowd scorer *)

Lemma mem_true (x : Z) (l : list Z) : Py.mem x l = true <-> In x l.
Proof.
  unfold Py.mem. rewrite existsb_exists. split.
  - intros (y & Hy & E). apply Z.eqb_eq in E. now subst.
  - intros H. exists x. split; [assumption | apply Z.eqb_refl].
Qed.

Lemma mem_false (x : Z) (l : list Z) : Py.mem x l = false <-> ~ In x l.
Proof.
  rewrite <- mem_true. destruct (Py.mem x l); split; intros; congruence.
Qed.

Lemma classify_peak (month : Z) (peak_months shoulder_months : list Z) :
  In month peak_months -> classify month peak_months shoulder_months = peak.
Proof. intros H. unfold classify. apply mem_true in H. now rewrite H. Qed.

Lemma classify_shoulder (month : Z) (peak_months shoulder_months : list Z) :
  ~ In month peak_months -> In month shoulder_months ->
  classify month peak_months shoulder_months = shoulder.
Proof.
  intros H1 H2. unfold classify. apply mem_false in H1. apply mem_true in H2.
  now rewrite H1, H2.
Qed.

Lemma classify_off (month : Z) (peak_months shoulder_months : list Z) :
  ~ In month peak_months -> ~ In month shoulder_months ->
  classify month peak_months shoulder_months = off.
Proof.
  intros H1 H2. unfold classify. apply mem_false in H1. apply mem_false in H2.
  now rewrite H1, H2.
Qed.

Lemma table_get_off_peak : table_get "off_peak" = row_off_peak.
Proof. reflexivity. Qed.

Lemma table_get_shoulder : table_get "shoulder" = row_shoulder.
Proof. reflexivity. Qed.

Lemma table_get_any : table_get "any" = row_any.
Proof. reflexivity. Qed.

Ltac table_value :=
  rewrite ?table_get_off_peak, ?table_get_shoulder, ?table_get_any;
  unfold row_off_peak, row_shoulder, row_any; lra.

(** C4. The month falls in exactly one season, peak membership first, then
    shoulder membership, else off; and for each of the three preferences
    the crowd score is the entry of the 3x3 table for that season. *)
Theorem score_crowd_table (month : Z) (peak_months shoulder_months : list Z) :
  let score := score_crowd month peak_months shoulder_months in
  (In month peak_months ->
     classify month peak_months shoulder_months = peak /\
     score "off_peak"%string = 0.05 /\ score "shoulder"%string = 0.25 /\
     score "any"%string = 0.75) /\
  (~ In month peak_months -> In month shoulder_months ->
     classify month peak_months shoulder_months = shoulder /\
     score "off_peak"%string = 0.55 /\ score "shoulder"%string = 1.00 /\
     score "any"%string = 1.00) /\
  (~ In month peak_months -> ~ In month shoulder_months ->
     classify month peak_months shoulder_months = off /\
     score "off_peak"%string = 1.00 /\ score "shoulder"%string = 0.70 /\
     score "any"%string = 0.85).
Proof.
  cbv zeta. unfold score_crowd. repeat split.
  - now apply classify_peak.
  - rewrite classify_peak by assumption. table_value.
  - rewrite classify_peak by assumption. table_value.
  - rewrite classify_peak by assumption. table_value.
  - now apply classify_shoulder.
  - rewrite classify_shoulder by assumption. table_value.
  - rewrite classify_shoulder by assumption. table_value.
  - rewrite classify_shoulder by assumption. table_value.
  - now apply classify_off.
  - rewrite classify_off by assumption. table_value.
  - rewrite classify_off by assumption. table_value.
  - rewrite classify_off by assumption. table_value.
Qed.

(** July in a city whose peak is June to August: the peak column. *)
Lemma score_crowd_table_witness :
  In 7%Z [6%Z; 7%Z; 8%Z] /\
  score_crowd 7 [6%Z; 7%Z; 8%Z] [5%Z; 9%Z] "off_peak" = 0.05.
Proof.
  split.
  - simpl. auto.
  - apply (score_crowd_table 7 [6%Z; 7%Z; 8%Z] [5%Z; 9%Z]). simpl. auto.
Defined.

(** ** Unknown enumeration values *)

(** C8. A [rain_tolerance] other than "low" and "high" takes the linear
    branch of "medium", and a [crowd_preference] outside the table uses the
    row of "any".  Both scorers are total functions: no value of the two
    strings makes either raise. *)
Theorem unknown_enum_fallback (monthly_precip : R) (month : Z)
    (peak_months shoulder_months : list Z) (s : string) :
  (s <> "low"%string -> s <> "high"%string ->
     score_precipitation monthly_precip s = Py.round (precip_base monthly_precip) 4 /\
     score_precipitation monthly_precip s = score_precipitation monthly_precip "medium") /\
  (s <> "off_peak"%string -> s <> "shoulder"%string -> s <> "any"%string ->
     score_crowd month peak_months shoulder_months s
       = row_any (classify month peak_months shoulder_months) /\
     score_crowd month peak_months shoulder_months s
       = score_crowd month peak_months shoulder_months "any").
Proof.
  split.
  - intros H1 H2. apply String.eqb_neq in H1, H2.
    unfold score_precipitation. rewrite H1, H2. split; reflexivity.
  - intros H1 H2 H3. apply String.eqb_neq in H1, H2, H3.
    unfold score_crowd, table_get. rewrite H1, H2, H3. split; reflexivity.
Qed.

Lemma unknown_enum_fallback_witness :
  score_precipitation 120 "monsoon" = score_precipitation 120 "medium" /\
  score_crowd 7 [7%Z] [] "quiet" = score_crowd 7 [7%Z] [] "any".
Proof.
  destruct (unknown_enum_fallback 120 7 [7%Z] [] "monsoon") as [H _].
  destruct (unknown_enum_fallback 120 7 [7%Z] [] "quiet") as [_ H'].
  split.
  - apply H; discriminate.
  - apply H'; discriminate.
Defined.

(** ** Precipitation scorer *)

Lemma precip_base_nonneg (p : R) : 0 <= precip_base p.
Proof. unfold precip_base. pose proof (Rmax_l 0.0 (1.0 - p / 300.0)). lra. Qed.

Lemma precip_base_antitone (p q : R) : p <= q -> precip_base q <= precip_base p.
Proof.
  intros H. unfold precip_base.
  apply Rmax_lub.
  - apply Rmax_l.
  - eapply Rle_trans; [|apply Rmax_r]. lra.
Qed.

Lemma precip_base_0 : precip_base 0 = 1.
Proof. unfold precip_base. rewrite Rmax_right; lra. Qed.

Lemma precip_base_le_1 (p : R) : 0 <= p -> precip_base p <= 1.
Proof. intros H. unfold precip_base. apply Rmax_lub; lra. Qed.

Lemma eqb_true (x y : R) : Py.eqb x y = true <-> x = y.
Proof. unfold Py.eqb. destruct (Req_dec_T x y); split; intros; auto; discriminate. Qed.

Lemma eqb_false (x y : R) : Py.eqb x y = false <-> x <> y.
Proof.
  unfold Py.eqb. destruct (Req_dec_T x y); split; intros; auto; try discriminate.
  contradiction.
Qed.

Lemma pow_zero (y : R) : y <> 0 -> Py.pow 0 y = 0.
Proof.
  intros H. unfold Py.pow.
  replace (Py.eqb 0 0) with true by (symmetry; now apply eqb_true).
  apply eqb_false in H. now rewrite H.
Qed.

Lemma pow_pos (x y : R) : 0 < x -> Py.pow x y = Rpower x y.
Proof.
  intros H. unfold Py.pow.
  replace (Py.eqb x 0) with false; [reflexivity|].
  symmetry. apply eqb_false. lra.
Qed.

Lemma pow_nonneg (x y : R) : 0 <= x -> y <> 0 -> 0 <= Py.pow x y.
Proof.
  intros [H|H] Hy.
  - rewrite pow_pos by assumption. left. apply exp_pos.
  - subst. rewrite pow_zero by assumption. lra.
Qed.

Lemma pow_mono (x x' y : R) : 0 < y -> 0 <= x <= x' -> Py.pow x y <= Py.pow x' y.
Proof.
  intros Hy [[H|H] H'].
  - rewrite !pow_pos by lra. apply Rle_Rpower_l; lra.
  - subst. rewrite pow_zero by lra. apply pow_nonneg; lra.
Qed.

Lemma pow_one (y : R) : Py.pow 1 y = 1.
Proof. rewrite pow_pos by lra. unfold Rpower. rewrite ln_1, Rmult_0_r. apply exp_0. Qed.

Lemma pow_le_1 (x y : R) : 0 < y -> 0 <= x <= 1 -> Py.pow x y <= 1.
Proof. intros Hy Hx. rewrite <- (pow_one y). apply pow_mono; lra. Qed.

(** C6. For each rain tolerance (any string: a string other than "low" and
    "high" scores as "medium") the precipitation score does not increase
    when the precipitation grows; at 0 mm it is exactly 1.0, which no
    precipitation of 0 mm or more exceeds. *)
Theorem score_precipitation_monotone (rain_tolerance : string) :
  (forall p q : R, p <= q ->
     score_precipitation q rain_tolerance <= score_precipitation p rain_tolerance) /\
  score_precipitation 0 rain_tolerance = 1.0 /\
  (forall p : R, 0 <= p -> score_precipitation p rain_tolerance <= 1.0).
Proof.
  assert (Hmono : forall p q : R, p <= q ->
    score_precipitation q rain_tolerance <= score_precipitation p rain_tolerance).
  { intros p q H. pose proof (precip_base_antitone p q H) as Hb.
    pose proof (precip_base_nonneg q) as Hq.
    unfold score_precipitation.
    destruct (String.eqb rain_tolerance "low");
      [|destruct (String.eqb rain_tolerance "high")]; apply round_mono.
    - apply pow_mono; lra.
    - lra.
    - exact Hb. }
  assert (Hzero : score_precipitation 0 rain_tolerance = 1.0).
  { unfold score_precipitation. rewrite precip_base_0.
    destruct (String.eqb rain_tolerance "low");
      [|destruct (String.eqb rain_tolerance "high")].
    - rewrite pow_one, round4_1. lra.
    - replace (0.5 + 1 * 0.5) with 1 by lra. rewrite round4_1. lra.
    - rewrite round4_1. lra. }
  repeat split; [exact Hmono | exact Hzero |].
  intros p Hp. rewrite <- Hzero. now apply Hmono.
Qed.

Lemma score_precipitation_monotone_witness :
  score_precipitation 200 "low" <= score_precipitation 50 "low" /\
  score_precipitation 400 "high" <= 1.0.
Proof.
  destruct (score_precipitation_monotone "low") as (H & _ & _).
  destruct (score_precipitation_monotone "high") as (_ & _ & H').
  split.
  - apply H. lra.
  - apply H'. lra.
Defined.

(** ** Temperature scorer *)

Lemma exp_nonpos_le_1 (x : R) : x <= 0 -> exp x <= 1.
Proof.
  intros [H|H].
  - rewrite <- exp_0. left. now apply exp_increasing.
  - subst. rewrite exp_0. lra.
Qed.

Lemma in_range_score_bounds (c lo hi : R) :
  0.85 <= in_range_score c lo hi <= 1.
Proof.
  unfold in_range_score.
  set (h := Rmax ((hi - lo) / 2) 1).
  assert (Hh : 0 < h) by (pose proof (Rmax_r ((hi - lo) / 2) 1); fold h in H; lra).
  assert (Hq : 0 <= Rabs (c - (lo + hi) / 2) / h).
  { apply Rmult_le_pos; [apply Rabs_pos | left; now apply Rinv_0_lt_compat]. }
  set (q := Rabs (c - (lo + hi) / 2) / h) in *.
  replace (0.15 * Rabs (c - (lo + hi) / 2) / h) with (0.15 * q) by (unfold q; field; lra).
  split.
  - replace 0.85 with (Py.round (IZR 8500 / 10000) 4) at 1
      by (rewrite round4_exact; lra).
    apply round_mono. eapply Rle_trans; [|apply Rmax_l]. lra.
  - rewrite <- round4_1. apply round_mono. apply Rmax_lub; lra.
Qed.

Lemma out_of_range_score_bounds (c lo hi : R) :
  0 <= out_of_range_score c lo hi <= 1.
Proof.
  unfold out_of_range_score. apply round4_unit. split.
  - eapply Rle_trans; [|apply Rmax_l]. lra.
  - apply Rmax_lub; [lra|]. apply exp_nonpos_le_1.
    pose proof (pow2_ge_0 (Rmax (lo - c) (c - hi) / Rmax ((hi - lo) / 2) 3)). lra.
Qed.

Lemma score_temperature_cases (c : R) (temp_min temp_max : option R) :
  let lo := Rmin (Py.get temp_min (c - 10)) (Py.get temp_max (c + 10)) in
  let hi := Rmax (Py.get temp_min (c - 10)) (Py.get temp_max (c + 10)) in
  score_temperature c temp_min temp_max = 0.65 \/
  score_temperature c temp_min temp_max = in_range_score c lo hi \/
  score_temperature c temp_min temp_max = out_of_range_score c lo hi.
Proof.
  cbv zeta. unfold score_temperature, in_range_score, out_of_range_score.
  destruct temp_min, temp_max; auto;
    match goal with
    | |- context [if ?b then _ else _] => destruct b; auto
    end.
Qed.

Lemma score_temperature_unit (c : R) (temp_min temp_max : option R) :
  0 <= score_temperature c temp_min temp_max <= 1.
Proof.
  destruct (score_temperature_cases c temp_min temp_max) as [E|[E|E]]; rewrite E.
  - lra.
  - match goal with |- context [in_range_score ?a ?b ?d] =>
      pose proof (in_range_score_bounds a b d) end. lra.
  - apply out_of_range_score_bounds.
Qed.

Lemma score_temperature_inside (c lo hi : R) :
  lo <= c <= hi ->
  score_temperature c (Some lo) (Some hi) = in_range_score c lo hi.
Proof.
  intros [H1 H2]. unfold score_temperature, Py.get.
  rewrite Rmin_left, Rmax_right by lra.
  apply leb_true in H1, H2. rewrite H1, H2. reflexivity.
Qed.

Lemma score_temperature_outside (c lo hi : R) :
  lo <= hi -> c < lo \/ hi < c ->
  score_temperature c (Some lo) (Some hi) = out_of_range_score c lo hi.
Proof.
  intros H Hc. unfold score_temperature, Py.get.
  rewrite Rmin_left, Rmax_right by lra.
  destruct Hc as [Hc|Hc]; apply leb_false in Hc; rewrite Hc;
    rewrite ?andb_false_r; reflexivity.
Qed.

Lemma round4_decimal (k : Z) (x : R) : x = IZR k / 10000 -> Py.round x 4 = x.
Proof. intros ->. apply round4_exact. Qed.

(** The midpoint of the range scores 1, a boundary at least 0.85, and a
    temperature one sigma beyond a boundary at most 0.85. *)
Lemma score_temperature_three_points (lo hi : R) :
  lo <= hi ->
  let sigma := Rmax ((hi - lo) / 2) 3 in
  score_temperature (hi + sigma) (Some lo) (Some hi)
    <= score_temperature hi (Some lo) (Some hi)
    <= score_temperature ((lo + hi) / 2) (Some lo) (Some hi) /\
  score_temperature (lo - sigma) (Some lo) (Some hi)
    <= score_temperature lo (Some lo) (Some hi)
    <= score_temperature ((lo + hi) / 2) (Some lo) (Some hi).
Proof.
  intros H sigma.
  assert (Hs : 3 <= sigma) by apply Rmax_r.
  assert (Hmid : score_temperature ((lo + hi) / 2) (Some lo) (Some hi) = 1).
  { rewrite score_temperature_inside by lra. unfold in_range_score.
    replace ((lo + hi) / 2 - (lo + hi) / 2) with 0 by lra.
    rewrite Rabs_R0. unfold Rdiv at 1. rewrite Rmult_0_r, Rmult_0_l.
    rewrite Rmax_right by lra. replace (1.0 - 0) with 1 by lra. apply round4_1. }
  assert (Hfar : forall c, Rmax (lo - c) (c - hi) = sigma ->
            out_of_range_score c lo hi <= 0.85).
  { intros c Hg. unfold out_of_range_score. rewrite Hg. fold sigma.
    replace (sigma / sigma) with 1 by (field; lra).
    replace (- 0.5 * 1 ^ 2) with (- (1 / 2)) by lra.
    replace 0.85 with (Py.round (IZR 8500 / 10000) 4) by (rewrite round4_exact; lra).
    apply round_mono. apply Rmax_lub; [lra|].
    rewrite exp_Ropp. pose proof (exp_ineq1_le (1 / 2)).
    apply Rle_trans with (/ (1 + 1 / 2)); [|lra].
    apply Rinv_le_contravar; lra. }
  rewrite Hmid.
  rewrite (score_temperature_inside hi), (score_temperature_inside lo) by lra.
  rewrite !score_temperature_outside by lra.
  pose proof (in_range_score_bounds hi lo hi).
  pose proof (in_range_score_bounds lo lo hi).
  assert (out_of_range_score (hi + sigma) lo hi <= 0.85).
  { apply Hfar. rewrite Rmax_right; lra. }
  assert (out_of_range_score (lo - sigma) lo hi <= 0.85).
  { apply Hfar. rewrite Rmax_left; lra. }
  lra.
Qed.

(** Outside the range the score does not increase with the gap. *)
Lemma out_of_range_score_antitone (c c' lo hi : R) :
  0 <= Rmax (lo - c) (c - hi) <= Rmax (lo - c') (c' - hi) ->
  out_of_range_score c' lo hi <= out_of_range_score c lo hi.
Proof.
  intros [H0 H]. unfold out_of_range_score.
  set (g := Rmax (lo - c) (c - hi)) in *. set (g' := Rmax (lo - c') (c' - hi)) in *.
  set (s := Rmax ((hi - lo) / 2) 3).
  assert (Hs : 3 <= s) by apply Rmax_r.
  apply round_mono. apply Rmax_lub; [apply Rmax_l|].
  eapply Rle_trans; [|apply Rmax_r].
  assert (Hq : 0 <= g / s <= g' / s).
  { split.
    - apply Rmult_le_pos; [lra | left; apply Rinv_0_lt_compat; lra].
    - apply Rmult_le_compat_r; [left; apply Rinv_0_lt_compat; lra | lra]. }
  assert (Hsq : (g / s) ^ 2 <= (g' / s) ^ 2) by nra.
  destruct (Req_dec ((g / s) ^ 2) ((g' / s) ^ 2)) as [E|N].
  - rewrite E. lra.
  - left. apply exp_increasing. lra.
Qed.

(** C3. With the range 20..30 a city at 30 degrees is inside the range
    (distance 0) and scores 0.85, and a city at 30.5 degrees is outside it
    (distance 0.5) and scores at least 0.995: the score grows with the
    distance from the range. *)
Theorem score_temperature_rises_past_boundary :
  score_temperature 30 (Some 20) (Some 30) = 0.85 /\
  0.995 <= score_temperature 30.5 (Some 20) (Some 30) /\
  score_temperature 30 (Some 20) (Some 30)
    < score_temperature 30.5 (Some 20) (Some 30).
Proof.
  assert (H30 : score_temperature 30 (Some 20) (Some 30) = 0.85).
  { rewrite score_temperature_inside by lra. unfold in_range_score.
    replace (30 - (20 + 30) / 2) with 5 by lra.
    replace ((30 - 20) / 2) with 5 by lra.
    rewrite Rabs_right, (Rmax_left 5 1) by lra.
    replace (1.0 - 0.15 * 5 / 5) with 0.85 by lra.
    rewrite Rmax_left by lra. apply (round4_decimal 8500). lra. }
  assert (H305 : 0.995 <= score_temperature 30.5 (Some 20) (Some 30)).
  { rewrite score_temperature_outside by lra. unfold out_of_range_score.
    replace 0.995 with (Py.round (IZR 9950 / 10000) 4) by (rewrite round4_exact; lra).
    apply round_mono. eapply Rle_trans; [|apply Rmax_r].
    rewrite (Rmax_right (20 - 30.5)), (Rmax_left ((30 - 20) / 2)) by lra.
    pose proof (exp_ineq1_le (- 0.5 * ((30.5 - 30) / ((30 - 20) / 2)) ^ 2)). lra. }
  repeat split; [exact H30 | exact H305 | lra].
Qed.

(** ** Crowd and tag scorers: range *)

Lemma score_crowd_unit (month : Z) (peak_months shoulder_months : list Z)
    (crowd_preference : string) :
  0 <= score_crowd month peak_months shoulder_months crowd_preference <= 1.
Proof.
  unfold score_crowd, table_get.
  destruct (String.eqb crowd_preference "off_peak");
    [|destruct (String.eqb crowd_preference "shoulder");
      [|destruct (String.eqb crowd_preference "any")]];
    destruct (classify month peak_months shoulder_months);
    unfold row_off_peak, row_shoulder, row_any; lra.
Qed.

Lemma score_tags_unit (city_tags preferred_tags : list string) :
  0 <= score_tags city_tags preferred_tags <= 1.
Proof.
  unfold score_tags.
  destruct preferred_tags as [|pt pts]; [simpl; lra|].
  destruct city_tags as [|ct cts]; [simpl; lra|].
  cbv [is_empty]. apply round4_unit.
  set (n := length (map Py.lower (pt :: pts))).
  set (m := length (filter _ _)).
  assert (Hn : 0 < INR n) by (apply lt_0_INR; unfold n; simpl; lia).
  assert (Hm : 0 <= INR m) by apply pos_INR.
  split.
  - apply Rmin_glb; [lra|].
    apply Rmult_le_pos; [assumption | left; now apply Rinv_0_lt_compat].
  - eapply Rle_trans; [apply Rmin_l | lra].
Qed.

Lemma score_precipitation_nonneg (p : R) (rain_tolerance : string) :
  0 <= score_precipitation p rain_tolerance.
Proof.
  pose proof (precip_base_nonneg p) as Hb.
  unfold score_precipitation. rewrite <- round4_0 at 1.
  destruct (String.eqb rain_tolerance "low");
    [|destruct (String.eqb rain_tolerance "high")]; apply round_mono.
  - apply pow_nonneg; lra.
  - lra.
  - exact Hb.
Qed.

Lemma score_precipitation_antitone (p q : R) (rain_tolerance : string) :
  p <= q -> score_precipitation q rain_tolerance <= score_precipitation p rain_tolerance.
Proof.
  intros H. pose proof (precip_base_antitone p q H) as Hb.
  pose proof (precip_base_nonneg q) as Hq.
  unfold score_precipitation.
  destruct (String.eqb rain_tolerance "low");
    [|destruct (String.eqb rain_tolerance "high")]; apply round_mono.
  - apply pow_mono; lra.
  - lra.
  - exact Hb.
Qed.

Lemma score_precipitation_at_zero (rain_tolerance : string) :
  score_precipitation 0 rain_tolerance = 1.
Proof.
  unfold score_precipitation. rewrite precip_base_0.
  destruct (String.eqb rain_tolerance "low");
    [|destruct (String.eqb rain_tolerance "high")].
  - now rewrite pow_one, round4_1.
  - replace (0.5 + 1 * 0.5) with 1 by lra. apply round4_1.
  - apply round4_1.
Qed.

Lemma score_precipitation_unit (p : R) (rain_tolerance : string) :
  0 <= p -> 0 <= score_precipitation p rain_tolerance <= 1.
Proof.
  intros H. split; [apply score_precipitation_nonneg|].
  rewrite <- (score_precipitation_at_zero rain_tolerance).
  now apply score_precipitation_antitone.
Qed.

(** ** The loop of [rank_cities] *)

Lemma score_city_inv (preferences : Prefs.t) (city : City.t) (x : Candidate.t) :
  score_city preferences city = Py.Ok x ->
  exists temps precips city_temp city_precip,
    City.monthly_temp city = Some temps /\
    Py.index temps (month_0 preferences) = Py.Ok city_temp /\
    City.monthly_precip city = Some precips /\
    Py.index precips (month_0 preferences) = Py.Ok city_precip /\
    Candidate.city x = city /\
    MonthData.temp (Candidate.month_data x) = city_temp /\
    MonthData.precip (Candidate.month_data x) = city_precip /\
    Scores.temp (Candidate.scores x)
      = score_temperature city_temp (Prefs.temp_min preferences)
          (Prefs.temp_max preferences) /\
    Scores.rain (Candidate.scores x)
      = score_precipitation city_precip
          (Py.get (Prefs.rain_tolerance preferences) "medium"%string) /\
    Scores.crowd (Candidate.scores x)
      = score_crowd (month_0 preferences + 1)
          (Py.get (City.peak_months city) []) (Py.get (City.shoulder_months city) [])
          (Py.get (Prefs.crowd_preference preferences) "any"%string) /\
    Scores.tags (Candidate.scores x)
      = score_tags (Py.get (City.tags city) [])
          (Py.get (Prefs.environment_tags preferences) []) /\
    final_of x
      = Py.round (W_TEMP * Scores.temp (Candidate.scores x)
                  + W_RAIN * Scores.rain (Candidate.scores x)
                  + W_CROWD * Scores.crowd (Candidate.scores x)
                  + W_TAGS * Scores.tags (Candidate.scores x)) 4.
Proof.
  unfold score_city. intros H.
  destruct (City.monthly_temp city) as [temps|]; [|discriminate].
  cbn [Py.item Py.bind] in H.
  destruct (Py.index temps (month_0 preferences)) as [t|] eqn:Et; [|discriminate].
  cbn [Py.bind] in H.
  destruct (City.monthly_precip city) as [precips|]; [|discriminate].
  cbn [Py.item Py.bind] in H.
  destruct (Py.index precips (month_0 preferences)) as [p|] eqn:Ep; [|discriminate].
  cbn [Py.bind] in H. injection H as <-.
  exists temps, precips, t, p. repeat split; assumption.
Qed.

Lemma rank_loop_spec (preferences : Prefs.t) (cities : list City.t)
    (results : list Candidate.t) :
  rank_loop preferences cities = Py.Ok results ->
  Forall2 (fun city x => score_city preferences city = Py.Ok x)
    (filter (survives preferences) cities) results.
Proof.
  revert results. induction cities as [|city rest IH]; intros results H.
  - injection H as <-. constructor.
  - cbn [rank_loop] in H. cbn [filter]. unfold survives at 1.
    destruct (excluded (exclude preferences) city); cbn [negb].
    + now apply IH.
    + destruct (score_city preferences city) as [x|] eqn:Ex; [|discriminate].
      cbn [Py.bind] in H.
      destruct (rank_loop preferences rest) as [xs|]; [|discriminate].
      cbn [Py.bind] in H. injection H as <-.
      constructor; [assumption | now apply IH].
Qed.

Lemma rank_cities_inv (cities : list City.t) (preferences : Prefs.t) (top_n : Z)
    (out : list Candidate.t) :
  rank_cities cities preferences top_n = Py.Ok out ->
  exists results,
    rank_loop preferences cities = Py.Ok results /\
    out = Py.slice_to (sort_reverse final_of results)
            (Py.get (Prefs.num_results preferences) top_n).
Proof.
  unfold rank_cities. intros H.
  destruct (rank_loop preferences cities) as [results|]; [|discriminate].
  cbn [Py.bind] in H. injection H as <-. now exists results.
Qed.

(** ** Sorting and slicing *)

Section Sort.

Context {A : Type} (key : A -> R).

Lemma insert_reverse_perm (x : A) (l : list A) :
  Permutation (insert_reverse key x l) (x :: l).
Proof.
  induction l as [|y l IH]; cbn [insert_reverse]; [reflexivity|].
  destruct (Py.ltb (key x) (key y)); [|reflexivity].
  rewrite IH. apply perm_swap.
Qed.

Lemma sort_reverse_perm (l : list A) : Permutation (sort_reverse key l) l.
Proof.
  induction l as [|x l IH]; [reflexivity|].
  unfold sort_reverse in *. cbn [fold_right].
  rewrite insert_reverse_perm. now constructor.
Qed.

Lemma insert_reverse_descending (x : A) (l : list A) :
  descending key l -> descending key (insert_reverse key x l).
Proof.
  unfold descending. induction 1 as [|y l Hl IH Hy]; cbn [insert_reverse].
  - repeat constructor.
  - destruct (Py.ltb (key x) (key y)) eqn:E.
    + apply ltb_true in E. constructor; [assumption|].
      rewrite Forall_forall in *. intros z Hz.
      apply (Permutation_in _ (insert_reverse_perm x l)) in Hz.
      destruct Hz as [<-|Hz]; [lra | now apply Hy].
    + apply ltb_false in E. constructor; [now constructor|].
      constructor; [assumption|].
      rewrite Forall_forall in *. intros z Hz. specialize (Hy z Hz). lra.
Qed.

Lemma sort_reverse_descending (l : list A) : descending key (sort_reverse key l).
Proof.
  induction l as [|x l IH]; [constructor|].
  unfold sort_reverse in *. cbn [fold_right]. now apply insert_reverse_descending.
Qed.

Lemma insert_reverse_with_key (v : R) (x : A) (l : list A) :
  with_key key v (insert_reverse key x l) = with_key key v (x :: l).
Proof.
  unfold with_key. induction l as [|y l IH]; cbn [insert_reverse]; [reflexivity|].
  destruct (Py.ltb (key x) (key y)) eqn:E; [|reflexivity].
  apply ltb_true in E. cbn [filter] in *. rewrite IH.
  destruct (Py.eqb (key x) v) eqn:Ex; [|reflexivity].
  destruct (Py.eqb (key y) v) eqn:Ey; [|reflexivity].
  apply eqb_true in Ex, Ey. lra.
Qed.

(** Stability: sorting does not reorder elements of equal key. *)
Lemma sort_reverse_stable (v : R) (l : list A) :
  with_key key v (sort_reverse key l) = with_key key v l.
Proof.
  induction l as [|x l IH]; [reflexivity|].
  unfold sort_reverse in *. cbn [fold_right].
  rewrite insert_reverse_with_key. unfold with_key in *. cbn [filter].
  now rewrite IH.
Qed.

Lemma descending_app_l (l l' : list A) : descending key (l ++ l') -> descending key l.
Proof.
  unfold descending. induction l as [|x l IH]; intros H; [constructor|].
  cbn [app] in H. inversion H as [|? ? Hs Hf]; subst.
  constructor; [now apply IH|].
  rewrite Forall_app in Hf. tauto.
Qed.

Lemma with_key_In (v : R) (x : A) (l : list A) :
  In x (with_key key v l) <-> In x l /\ key x = v.
Proof. unfold with_key. now rewrite filter_In, eqb_true. Qed.

Lemma with_key_cons_same (x : A) (l : list A) :
  with_key key (key x) (x :: l) = x :: with_key key (key x) l.
Proof.
  unfold with_key. cbn [filter].
  replace (Py.eqb (key x) (key x)) with true; [reflexivity|].
  symmetry. now apply eqb_true.
Qed.

Lemma descending_head_max (x y : A) (l : list A) :
  descending key (x :: l) -> In y (x :: l) -> key y <= key x.
Proof.
  intros H [<-|Hy]; [lra|].
  inversion H as [|? ? _ Hf]; subst. rewrite Forall_forall in Hf. now apply Hf.
Qed.

(** A descending list is determined by its classes of equal key: the stable
    sort of a list is unique, whatever algorithm computes it. *)
Lemma descending_stable_unique (l1 l2 : list A) :
  descending key l1 -> descending key l2 ->
  (forall v, with_key key v l1 = with_key key v l2) -> l1 = l2.
Proof.
  revert l2. induction l1 as [|x l1 IH]; intros [|y l2] H1 H2 Hk.
  - reflexivity.
  - specialize (Hk (key y)). rewrite with_key_cons_same in Hk. discriminate.
  - specialize (Hk (key x)). rewrite with_key_cons_same in Hk. discriminate.
  - assert (Hxy : key x <= key y).
    { apply (descending_head_max y x l2 H2).
      apply (with_key_In (key x)). rewrite <- Hk, with_key_cons_same. now left. }
    assert (Hyx : key y <= key x).
    { apply (descending_head_max x y l1 H1).
      apply (with_key_In (key y)). rewrite Hk, with_key_cons_same. now left. }
    assert (E : key y = key x) by lra.
    pose proof (Hk (key x)) as Hx. rewrite with_key_cons_same in Hx.
    rewrite <- E in Hx at 2. rewrite with_key_cons_same in Hx.
    injection Hx as <- _. f_equal.
    inversion H1; inversion H2; subst. apply IH; try assumption.
    intros v. specialize (Hk v). unfold with_key in *. cbn [filter] in Hk.
    destruct (Py.eqb (key x) v); [now injection Hk | exact Hk].
Qed.

(** So [sort_reverse] is the result of every stable sort by decreasing key. *)
Lemma sort_reverse_unique (l l' : list A) :
  descending key l' ->
  (forall v, with_key key v l' = with_key key v l) ->
  l' = sort_reverse key l.
Proof.
  intros Hd Hk. apply descending_stable_unique.
  - exact Hd.
  - apply sort_reverse_descending.
  - intros v. now rewrite Hk, sort_reverse_stable.
Qed.

End Sort.

Lemma slice_to_firstn {A : Type} (l : list A) (n : Z) :
  exists k : nat, Py.slice_to l n = firstn k l /\
    (0 <= n -> Z.of_nat k <= n)%Z.
Proof.
  unfold Py.slice_to. eexists. split; [reflexivity|].
  intros H. destruct (n <? 0)%Z eqn:E; [apply Z.ltb_lt in E; lia|]. lia.
Qed.

Lemma slice_to_prefix {A : Type} (l : list A) (n : Z) :
  exists rest, l = (Py.slice_to l n ++ rest)%list.
Proof.
  destruct (slice_to_firstn l n) as (k & -> & _).
  exists (skipn k l). symmetry. apply firstn_skipn.
Qed.

Lemma slice_to_length {A : Type} (l : list A) (n : Z) :
  (length (Py.slice_to l n) <= length l)%nat /\
  (0 <= n -> Z.of_nat (length (Py.slice_to l n)) <= n)%Z.
Proof.
  destruct (slice_to_firstn l n) as (k & -> & Hk).
  rewrite length_firstn. split; [lia|]. intros H. specialize (Hk H). lia.
Qed.

Lemma slice_to_all {A : Type} (l : list A) (n : Z) :
  (Z.of_nat (length l) <= n)%Z -> Py.slice_to l n = l.
Proof.
  intros H. unfold Py.slice_to.
  destruct (n <? 0)%Z eqn:E; [apply Z.ltb_lt in E; lia|].
  rewrite Z.min_r by lia. rewrite Nat2Z.id. apply firstn_all.
Qed.

(** The sort on a list with ties: equal keys keep the order of the input. *)
Example sort_reverse_ties :
  sort_reverse (fun p : Z * string => IZR (fst p))
    [(1%Z, "a"%string); (2%Z, "b"%string); (1%Z, "c"%string); (2%Z, "d"%string)]
  = [(2%Z, "b"%string); (2%Z, "d"%string); (1%Z, "a"%string); (1%Z, "c"%string)].
Proof.
  unfold sort_reverse. cbn [fold_right insert_reverse fst].
  repeat (match goal with
          | |- context [Py.ltb ?a ?b] =>
            first [ rewrite (proj2 (ltb_true a b)) by lra
                  | rewrite (proj2 (ltb_false a b)) by lra ]
          end; cbn [insert_reverse fst]).
  reflexivity.
Qed.

(** Slices and indices with negative bounds. *)
Example slice_to_examples :
  Py.slice_to [1%Z; 2%Z; 3%Z] 2 = [1%Z; 2%Z] /\
  Py.slice_to [1%Z; 2%Z; 3%Z] 8 = [1%Z; 2%Z; 3%Z] /\
  Py.slice_to [1%Z; 2%Z; 3%Z] 0 = [] /\
  Py.slice_to [1%Z; 2%Z; 3%Z] (-1) = [1%Z; 2%Z] /\
  Py.slice_to [1%Z; 2%Z; 3%Z] (-5) = [].
Proof. repeat split. Qed.

Example index_examples :
  Py.index [1%Z; 2%Z; 3%Z] 0 = Py.Ok 1%Z /\
  Py.index [1%Z; 2%Z; 3%Z] (-1) = Py.Ok 3%Z /\
  Py.index [1%Z; 2%Z; 3%Z] (-3) = Py.Ok 1%Z /\
  Py.index [1%Z; 2%Z; 3%Z] 3 = Py.Raise Py.IndexError /\
  Py.index [1%Z; 2%Z; 3%Z] (-4) = Py.Raise Py.IndexError.
Proof. repeat split. Qed.

(** ** Indexing *)

Lemma index_in_range {A : Type} (l : list A) (i : Z) :
  (- Z.of_nat (length l) <= i < Z.of_nat (length l))%Z ->
  exists a, Py.index l i = Py.Ok a.
Proof.
  intros H. unfold Py.index.
  set (j := if (i <? 0)%Z then (i + Z.of_nat (length l))%Z else i).
  assert (Hj : (0 <= j < Z.of_nat (length l))%Z).
  { unfold j. destruct (i <? 0)%Z eqn:E;
      [apply Z.ltb_lt in E | apply Z.ltb_ge in E]; lia. }
  destruct (j <? 0)%Z eqn:E; [apply Z.ltb_lt in E; lia|].
  destruct (nth_error l (Z.to_nat j)) as [a|] eqn:En; [now exists a|].
  apply nth_error_None in En. lia.
Qed.

Lemma index_minus_one {A : Type} (l : list A) (a : A) :
  Py.index l (-1) = Py.Ok a <-> nth_error l (length l - 1) = Some a /\ l <> [].
Proof.
  unfold Py.index. change (-1 <? 0)%Z with true. cbv iota.
  destruct l as [|x l].
  - cbn. split; [discriminate | intros [_ H]; congruence].
  - replace (-1 + Z.of_nat (length (x :: l)))%Z with (Z.of_nat (length l))
      by (cbn [length]; lia).
    destruct (Z.of_nat (length l) <? 0)%Z eqn:E; [apply Z.ltb_lt in E; lia|].
    rewrite Nat2Z.id.
    replace (length (x :: l) - 1)%nat with (length l) by (cbn [length]; lia).
    destruct (nth_error (x :: l) (length l)) as [b|]; split.
    + intros H. injection H as <-. split; [reflexivity | discriminate].
    + intros [H _]. injection H as <-. reflexivity.
    + discriminate.
    + intros [H _]. discriminate.
Qed.

(** ** Well-formed input *)

Lemma score_city_returns (preferences : Prefs.t) (city : City.t) :
  wf_city city -> (-12 <= month_0 preferences < 12)%Z ->
  exists x, score_city preferences city = Py.Ok x.
Proof.
  intros (temps & precips & Et & Ep & Lt & Lp) Hm.
  destruct (index_in_range temps (month_0 preferences)) as [t Ht]; [lia|].
  destruct (index_in_range precips (month_0 preferences)) as [p Hp]; [lia|].
  unfold score_city. rewrite Et, Ep. cbn [Py.item Py.bind].
  rewrite Ht. cbn [Py.bind]. rewrite Hp. cbn [Py.bind]. eexists. reflexivity.
Qed.

Lemma rank_loop_returns (preferences : Prefs.t) (cities : list City.t) :
  Forall wf_city cities -> (-12 <= month_0 preferences < 12)%Z ->
  exists results, rank_loop preferences cities = Py.Ok results.
Proof.
  intros Hwf Hm. induction Hwf as [|city rest Hc _ IH]; [now exists []|].
  cbn [rank_loop]. destruct (excluded (exclude preferences) city); [exact IH|].
  destruct (score_city_returns preferences city Hc Hm) as [x ->].
  destruct IH as [results ->]. cbn [Py.bind]. eexists. reflexivity.
Qed.

(** On a well-formed catalog, with a month index inside the arrays,
    [rank_cities] returns a list. *)
Lemma rank_cities_returns (cities : list City.t) (preferences : Prefs.t) (top_n : Z) :
  Forall wf_city cities -> (-12 <= month_0 preferences < 12)%Z ->
  exists out, rank_cities cities preferences top_n = Py.Ok out.
Proof.
  intros Hwf Hm. unfold rank_cities.
  destruct (rank_loop_returns preferences cities Hwf Hm) as [results ->].
  cbn [Py.bind]. eexists. reflexivity.
Qed.

(** ** The sample catalog *)

Lemma catalog_wf : Forall wf_city catalog.
Proof.
  repeat constructor; eexists; eexists; repeat split; reflexivity.
Qed.

(** ** The end-to-end scenario of the specification *)

Lemma half_even_near (k : Z) (y : R) :
  IZR k - 1 / 2 < y < IZR k + 1 / 2 -> Py.half_even y = k.
Proof.
  intros [H1 H2]. unfold Py.half_even.
  destruct (Rle_dec (IZR k) y) as [Hk|Hk].
  - rewrite (floor_unique y k) by lra.
    replace (Py.ltb (y - IZR k) (1 / 2)) with true; [reflexivity|].
    symmetry. apply ltb_true. lra.
  - assert (E : Int_part y = (k - 1)%Z).
    { apply floor_unique. rewrite minus_IZR. lra. }
    rewrite E, minus_IZR.
    replace (Py.ltb (y - (IZR k - 1)) (1 / 2)) with false
      by (symmetry; apply ltb_false; lra).
    replace (Py.ltb (1 / 2) (y - (IZR k - 1))) with true
      by (symmetry; apply ltb_true; lra).
    lia.
Qed.

Lemma round4_near (k : Z) (x : R) :
  IZR k - 1 / 2 < x * 10000 < IZR k + 1 / 2 -> Py.round x 4 = IZR k / 10000.
Proof.
  intros H. unfold Py.round. change (10 ^ Z.of_nat 4)%Z with 10000%Z.
  now rewrite (half_even_near k).
Qed.

(** The catalog has two cities in Europe and one in Asia; with Europe
    excluded the ranking is exactly the Asian city, with these scores. *)
Lemma end_to_end_europe_excluded :
  rank_cities catalog january_prefs top_n_default = Py.Ok [bangkok_in_january].
Proof.
  assert (Ht : score_temperature 30 (Some 20) (Some 35) = 0.95).
  { rewrite score_temperature_inside by lra. unfold in_range_score.
    replace (30 - (20 + 35) / 2) with 2.5 by lra.
    replace ((35 - 20) / 2) with 7.5 by lra.
    rewrite Rabs_right, (Rmax_left 7.5 1) by lra.
    replace (1.0 - 0.15 * 2.5 / 7.5) with 0.95 by lra.
    rewrite Rmax_right by lra. apply (round4_decimal 9500). lra. }
  assert (Hr : score_precipitation 10 "medium" = 0.9667).
  { unfold score_precipitation, precip_base. cbn [String.eqb Ascii.eqb Bool.eqb].
    rewrite Rmax_right by lra. rewrite (round4_near 9667); lra. }
  assert (Hc : score_crowd 1 [11%Z; 12%Z; 2%Z] [3%Z; 10%Z] "off_peak" = 1.0).
  { reflexivity. }
  assert (Hg : score_tags ["city"%string; "food"%string; "cultural"%string] [] = 0.65).
  { reflexivity. }
  assert (Hf : Py.round (W_TEMP * 0.95 + W_RAIN * 0.9667 + W_CROWD * 1.0
                         + W_TAGS * 0.65) 4 = 0.935).
  { unfold W_TEMP, W_RAIN, W_CROWD, W_TAGS. rewrite (round4_near 9350); lra. }
  transitivity
    (Py.Ok
       [Candidate.mk bangkok
          (Scores.mk
             (score_temperature 30 (Some 20) (Some 35))
             (score_precipitation 10 "medium")
             (score_crowd 1 [11%Z; 12%Z; 2%Z] [3%Z; 10%Z] "off_peak")
             (score_tags ["city"%string; "food"%string; "cultural"%string] [])
             (Py.round
                (W_TEMP * score_temperature 30 (Some 20) (Some 35)
                 + W_RAIN * score_precipitation 10 "medium"
                 + W_CROWD * score_crowd 1 [11%Z; 12%Z; 2%Z] [3%Z; 10%Z] "off_peak"
                 + W_TAGS * score_tags ["city"%string; "food"%string; "cultural"%string] [])
                4))
          (MonthData.mk 30 10 "off season")]); [reflexivity|].
  rewrite Ht, Hr, Hc, Hg, Hf. reflexivity.
Qed.

(** ** A ranking with a tie *)

Lemma score_city_oslo_any : score_city no_prefs oslo = Py.Ok oslo_any.
Proof.
  assert (Hr : score_precipitation 50 "medium" = 0.8333).
  { unfold score_precipitation, precip_base. cbn [String.eqb Ascii.eqb Bool.eqb].
    rewrite Rmax_right by lra. rewrite (round4_near 8333); lra. }
  assert (Hf : Py.round (W_TEMP * 0.65 + W_RAIN * 0.8333 + W_CROWD * 0.75
                         + W_TAGS * 0.65) 4 = 0.725).
  { unfold W_TEMP, W_RAIN, W_CROWD, W_TAGS. rewrite (round4_near 7250); lra. }
  transitivity
    (Py.Ok
       (Candidate.mk oslo
          (Scores.mk 0.65 (score_precipitation 50 "medium") 0.75 0.65
             (Py.round (W_TEMP * 0.65 + W_RAIN * score_precipitation 50 "medium"
                        + W_CROWD * 0.75 + W_TAGS * 0.65) 4))
          (MonthData.mk 5 50 "peak season"))); [reflexivity|].
  rewrite Hr, Hf. reflexivity.
Qed.

Lemma score_city_bangkok_any : score_city no_prefs bangkok = Py.Ok bangkok_any.
Proof.
  assert (Hr : score_precipitation 10 "medium" = 0.9667).
  { unfold score_precipitation, precip_base. cbn [String.eqb Ascii.eqb Bool.eqb].
    rewrite Rmax_right by lra. rewrite (round4_near 9667); lra. }
  assert (Hf : Py.round (W_TEMP * 0.65 + W_RAIN * 0.9667 + W_CROWD * 0.85
                         + W_TAGS * 0.65) 4 = 0.785).
  { unfold W_TEMP, W_RAIN, W_CROWD, W_TAGS. rewrite (round4_near 7850); lra. }
  transitivity
    (Py.Ok
       (Candidate.mk bangkok
          (Scores.mk 0.65 (score_precipitation 10 "medium") 0.85 0.65
             (Py.round (W_TEMP * 0.65 + W_RAIN * score_precipitation 10 "medium"
                        + W_CROWD * 0.85 + W_TAGS * 0.65) 4))
          (MonthData.mk 30 10 "off season"))); [reflexivity|].
  rewrite Hr, Hf. reflexivity.
Qed.

Lemma score_city_lisbon_any : score_city no_prefs lisbon = Py.Ok lisbon_any.
Proof.
  assert (Hr : score_precipitation 100 "medium" = 0.6667).
  { unfold score_precipitation, precip_base. cbn [String.eqb Ascii.eqb Bool.eqb].
    rewrite Rmax_right by lra. rewrite (round4_near 6667); lra. }
  assert (Hf : Py.round (W_TEMP * 0.65 + W_RAIN * 0.6667 + W_CROWD * 1.0
                         + W_TAGS * 0.65) 4 = 0.725).
  { unfold W_TEMP, W_RAIN, W_CROWD, W_TAGS. rewrite (round4_near 7250); lra. }
  transitivity
    (Py.Ok
       (Candidate.mk lisbon
          (Scores.mk 0.65 (score_precipitation 100 "medium") 1.0 0.65
             (Py.round (W_TEMP * 0.65 + W_RAIN * score_precipitation 100 "medium"
                        + W_CROWD * 1.0 + W_TAGS * 0.65) 4))
          (MonthData.mk 15 100 "shoulder season"))); [reflexivity|].
  rewrite Hr, Hf. reflexivity.
Qed.

(** The loop scores the three cities in catalog order. *)
Lemma rank_loop_no_prefs :
  rank_loop no_prefs catalog = Py.Ok [oslo_any; bangkok_any; lisbon_any].
Proof.
  unfold catalog. cbn [rank_loop].
  change (excluded (exclude no_prefs) oslo) with false.
  change (excluded (exclude no_prefs) bangkok) with false.
  change (excluded (exclude no_prefs) lisbon) with false. cbv iota.
  rewrite score_city_oslo_any, score_city_bangkok_any, score_city_lisbon_any.
  reflexivity.
Qed.

Lemma final_of_any :
  final_of oslo_any = 0.725 /\ final_of bangkok_any = 0.785 /\
  final_of lisbon_any = 0.725.
Proof. repeat split. Qed.

(** Bangkok moves to the front; Oslo stays before Lisbon, as in the
    catalog. *)
Lemma sort_with_tie :
  sort_reverse final_of [oslo_any; bangkok_any; lisbon_any]
  = [bangkok_any; oslo_any; lisbon_any].
Proof.
  destruct final_of_any as (Ho & Hb & Hl).
  unfold sort_reverse. cbn [fold_right insert_reverse]. rewrite ?Ho, ?Hb, ?Hl.
  repeat (match goal with
          | |- context [Py.ltb ?a ?b] =>
            first [ rewrite (proj2 (ltb_true a b)) by lra
                  | rewrite (proj2 (ltb_false a b)) by lra ]
          end; cbn [insert_reverse]; rewrite ?Ho, ?Hb, ?Hl).
  reflexivity.
Qed.

Lemma ranking_with_tie :
  rank_cities catalog no_prefs top_n_default
  = Py.Ok [bangkok_any; oslo_any; lisbon_any].
Proof.
  unfold rank_cities. rewrite rank_loop_no_prefs. cbn [Py.bind].
  rewrite sort_with_tie. reflexivity.
Qed.

Lemma with_key_tie :
  with_key final_of 0.725 [bangkok_any; oslo_any; lisbon_any] = [oslo_any; lisbon_any] /\
  with_key final_of 0.725 [oslo_any; bangkok_any; lisbon_any] = [oslo_any; lisbon_any].
Proof.
  destruct final_of_any as (Ho & Hb & Hl).
  unfold with_key. cbn [filter]. rewrite Ho, Hb, Hl.
  replace (Py.eqb 0.725 0.725) with true by (symmetry; now apply eqb_true).
  replace (Py.eqb 0.785 0.725) with false by (symmetry; apply eqb_false; lra).
  split; reflexivity.
Qed.

(** ** Order and length of the ranking *)

(** C1. When [rank_cities] returns, the list is in non-increasing order of
    final score; for each score value, the returned candidates with that
    score are an initial part of the candidates with that score taken in
    catalog order (the sort is stable and has no second key); the list is no
    longer than the number of cities that pass the exclusion filter, and,
    for a [num_results] (default [top_n] = 8) that is not negative, no
    longer than [num_results]. *)
Theorem rank_cities_sorted_stable_bounded (cities : list City.t)
    (preferences : Prefs.t) (top_n : Z) (out : list Candidate.t) :
  rank_cities cities preferences top_n = Py.Ok out ->
  let num_results := Py.get (Prefs.num_results preferences) top_n in
  descending final_of out /\
  (exists results,
     Forall2 (fun city x => score_city preferences city = Py.Ok x)
       (filter (survives preferences) cities) results /\
     forall v, exists rest,
       with_key final_of v results = (with_key final_of v out ++ rest)%list) /\
  (length out <= length (filter (survives preferences) cities))%nat /\
  (0 <= num_results -> Z.of_nat (length out) <= num_results)%Z.
Proof.
  intros H num_results.
  destruct (rank_cities_inv _ _ _ _ H) as (results & Hloop & Hout).
  fold num_results in Hout.
  pose proof (rank_loop_spec _ _ _ Hloop) as Hspec.
  destruct (slice_to_prefix (sort_reverse final_of results) num_results) as [rest Hrest].
  rewrite <- Hout in Hrest.
  pose proof (slice_to_length (sort_reverse final_of results) num_results) as [Hl1 Hl2].
  rewrite <- Hout in Hl1, Hl2.
  repeat split.
  - apply descending_app_l with (l' := rest). rewrite <- Hrest.
    apply sort_reverse_descending.
  - exists results. split; [exact Hspec|].
    intros v. exists (with_key final_of v rest).
    rewrite <- (sort_reverse_stable final_of v results), Hrest.
    unfold with_key. apply filter_app.
  - rewrite (Forall2_length Hspec).
    rewrite <- (Permutation_length (sort_reverse_perm final_of results)). exact Hl1.
  - exact Hl2.
Qed.

(** The catalog in January without preferences: Bangkok (second in the
    catalog) comes first, and Oslo and Lisbon, tied at 0.725, keep their
    catalog order. *)
Lemma rank_cities_sorted_stable_bounded_witness :
  rank_cities catalog no_prefs top_n_default = Py.Ok [bangkok_any; oslo_any; lisbon_any] /\
  final_of bangkok_any = 0.785 /\ final_of oslo_any = 0.725 /\
  final_of lisbon_any = 0.725 /\
  descending final_of [bangkok_any; oslo_any; lisbon_any] /\
  (exists results,
     Forall2 (fun city x => score_city no_prefs city = Py.Ok x)
       (filter (survives no_prefs) catalog) results /\
     forall v, exists rest,
       with_key final_of v results = (with_key final_of v [bangkok_any; oslo_any; lisbon_any] ++ rest)%list) /\
  with_key final_of 0.725 [bangkok_any; oslo_any; lisbon_any]
  = [oslo_any; lisbon_any] /\
  (length [bangkok_any; oslo_any; lisbon_any]
   <= length (filter (survives no_prefs) catalog))%nat /\
  (Z.of_nat (length [bangkok_any; oslo_any; lisbon_any]) <= 8)%Z.
Proof.
  destruct (rank_cities_sorted_stable_bounded catalog no_prefs top_n_default
              [bangkok_any; oslo_any; lisbon_any] ranking_with_tie) as (Hs & Hst & Hl & Hn).
  destruct final_of_any as (Ho & Hb & Hlis).
  split; [exact ranking_with_tie|].
  split; [exact Hb|]. split; [exact Ho|]. split; [exact Hlis|].
  split; [exact Hs|]. split; [exact Hst|].
  split; [exact (proj1 with_key_tie)|].
  split; [exact Hl|]. apply Hn. cbv. congruence.
Defined.

(** ** Where the candidates come from *)

Lemma Forall2_In_r {A B : Type} (P : A -> B -> Prop) (l : list A) (l' : list B) (b : B) :
  Forall2 P l l' -> In b l' -> exists a, In a l /\ P a b.
Proof.
  induction 1 as [|a b' l l' Hab _ IH]; intros Hin; [contradiction|].
  destruct Hin as [<-|Hin].
  - exists a. split; [now left | assumption].
  - destruct (IH Hin) as (a' & Ha' & Hp). exists a'. split; [now right | assumption].
Qed.

Lemma Forall2_strengthen {A B : Type} (Q : A -> Prop) (P P' : A -> B -> Prop)
    (l : list A) (l' : list B) :
  (forall a b, Q a -> P a b -> P' a b) ->
  Forall Q l -> Forall2 P l l' -> Forall2 P' l l'.
Proof.
  intros Himp HQ H. induction H as [|a b l l' Hab _ IH]; [constructor|].
  inversion HQ; subst. constructor; auto.
Qed.

Lemma rank_cities_In (cities : list City.t) (preferences : Prefs.t) (top_n : Z)
    (out : list Candidate.t) (x : Candidate.t) :
  rank_cities cities preferences top_n = Py.Ok out -> In x out ->
  exists city, In city cities /\ survives preferences city = true /\
    score_city preferences city = Py.Ok x.
Proof.
  intros H Hx.
  destruct (rank_cities_inv _ _ _ _ H) as (results & Hloop & ->).
  destruct (slice_to_prefix (sort_reverse final_of results)
              (Py.get (Prefs.num_results preferences) top_n)) as [rest Hrest].
  assert (Hin : In x results).
  { apply (Permutation_in _ (sort_reverse_perm final_of results)).
    rewrite Hrest. apply in_or_app. now left. }
  destruct (Forall2_In_r _ _ _ _ (rank_loop_spec _ _ _ Hloop) Hin) as (city & Hc & Hs).
  apply filter_In in Hc. exists city. tauto.
Qed.

(** ** Range of the scores *)

(** For every candidate [rank_cities] returns, the temperature, crowd
    and tag scores lie in [0,1] and the precipitation and final scores are
    not negative; when the city's precipitation for the month is not
    negative, the precipitation score and the final score lie in [0,1]
    too. *)
Theorem scores_in_unit_interval (cities : list City.t) (preferences : Prefs.t)
    (top_n : Z) (out : list Candidate.t) (x : Candidate.t) :
  rank_cities cities preferences top_n = Py.Ok out -> In x out ->
  let s := Candidate.scores x in
  unit_interval (Scores.temp s) /\
  unit_interval (Scores.crowd s) /\
  unit_interval (Scores.tags s) /\
  0 <= Scores.rain s /\ 0 <= Scores.final s /\
  (0 <= MonthData.precip (Candidate.month_data x) ->
     unit_interval (Scores.rain s) /\ unit_interval (Scores.final s)).
Proof.
  intros H Hx s.
  destruct (rank_cities_In _ _ _ _ _ H Hx) as (city & _ & _ & Hs).
  destruct (score_city_inv _ _ _ Hs)
    as (temps & precips & t & p & _ & _ & _ & _ & _ & _ & Hp & Et & Er & Ec & Eg & Ef).
  unfold final_of in Ef. fold s in Et, Er, Ec, Eg, Ef.
  assert (Ht : unit_interval (Scores.temp s)) by (rewrite Et; apply score_temperature_unit).
  assert (Hc : unit_interval (Scores.crowd s)) by (rewrite Ec; apply score_crowd_unit).
  assert (Hg : unit_interval (Scores.tags s)) by (rewrite Eg; apply score_tags_unit).
  assert (Hr : 0 <= Scores.rain s) by (rewrite Er; apply score_precipitation_nonneg).
  assert (Hf : 0 <= Scores.final s).
  { rewrite Ef. rewrite <- round4_0 at 1. apply round_mono.
    unfold unit_interval, W_TEMP, W_RAIN, W_CROWD, W_TAGS in *. lra. }
  split; [exact Ht|]. split; [exact Hc|]. split; [exact Hg|].
  split; [exact Hr|]. split; [exact Hf|].
  intros Hpos. rewrite Hp in Hpos.
  assert (Hr1 : Scores.rain s <= 1).
  { rewrite Er. now apply score_precipitation_unit. }
  split; [split; assumption|]. split; [exact Hf|].
  rewrite Ef. rewrite <- round4_1. apply round_mono.
  unfold unit_interval, W_TEMP, W_RAIN, W_CROWD, W_TAGS in *. lra.
Qed.



Lemma scores_in_unit_interval_witness :
  exists out x,
    rank_cities [bangkok] no_prefs top_n_default = Py.Ok out /\
    In x out /\
    unit_interval (Scores.rain (Candidate.scores x)) /\
    unit_interval (Scores.final (Candidate.scores x)).
Proof.
  eexists. eexists. split; [reflexivity|]. split; [left; reflexivity|].
  apply (scores_in_unit_interval [bangkok] no_prefs top_n_default _ _
           eq_refl (or_introl eq_refl)).
  cbn [Candidate.month_data MonthData.precip]. change (0 <= 10). lra.
Defined.

(** ** A month outside 1..12 *)

(** C10. With [travel_month] = 0 the month index is -1; on a catalog whose
    monthly arrays have 12 entries [rank_cities] raises nothing and returns
    the sorted, truncated list of one candidate per surviving city, each
    scored and reported from the December entries of its arrays. *)
Theorem travel_month_zero_reads_december (cities : list City.t)
    (preferences : Prefs.t) (top_n : Z) :
  Prefs.travel_month preferences = Some 0%Z ->
  Forall wf_city cities ->
  month_0 preferences = (-1)%Z /\
  exists results,
    rank_cities cities preferences top_n
      = Py.Ok (Py.slice_to (sort_reverse final_of results)
                 (Py.get (Prefs.num_results preferences) top_n)) /\
    Forall2 (scored_from_december preferences)
      (filter (survives preferences) cities) results.
Proof.
  intros Hm Hwf.
  assert (Hm0 : month_0 preferences = (-1)%Z) by (unfold month_0; now rewrite Hm).
  split; [exact Hm0|].
  destruct (rank_loop_returns preferences cities Hwf) as [results Hloop];
    [rewrite Hm0; lia|].
  exists results. split.
  - unfold rank_cities. rewrite Hloop. reflexivity.
  - apply Forall2_strengthen
      with (Q := wf_city) (P := fun city x => score_city preferences city = Py.Ok x).
    + intros city x (temps & precips & Et & Ep & Lt & Lp) Hs.
      destruct (score_city_inv _ _ _ Hs)
        as (temps' & precips' & t & p & Et' & It & Ep' & Ip & Hc & Ht & Hp & Est & Esr & _).
      rewrite Et in Et'. rewrite Ep in Ep'.
      injection Et' as <-. injection Ep' as <-.
      rewrite Hm0 in It, Ip.
      apply index_minus_one in It, Ip. rewrite Lt in It. rewrite Lp in Ip.
      exists temps, precips, t, p. tauto.
    + rewrite Forall_forall in *. intros city Hc. apply Hwf.
      apply filter_In in Hc. tauto.
    + now apply rank_loop_spec.
Qed.

Lemma travel_month_zero_reads_december_witness :
  exists results,
    rank_cities catalog month_zero_prefs top_n_default
      = Py.Ok (Py.slice_to (sort_reverse final_of results) 8) /\
    Forall2 (scored_from_december month_zero_prefs) catalog results.
Proof.
  destruct (travel_month_zero_reads_december catalog month_zero_prefs top_n_default
              eq_refl catalog_wf) as (_ & results & H1 & H2).
  exists results. split; [exact H1 | exact H2].
Defined.

(** ** Strings *)

Local Open Scope string_scope.

Lemma prefix_spec (s t : string) :
  String.prefix s t = true <-> exists post, t = s ++ post.
Proof.
  revert t. induction s as [|c s IH]; intros t.
  - split; [intros _; now exists t | intros _; destruct t; reflexivity].
  - destruct t as [|d t]; cbn.
    + split; [discriminate | intros [post H]; discriminate].
    + destruct (Ascii.ascii_dec c d) as [<-|N].
      * rewrite IH. split; intros [post H]; exists post; congruence.
      * split; [discriminate | intros [post H]; congruence].
Qed.

Lemma str_in_spec (s t : string) :
  Py.str_in s t = true <-> exists pre post, t = pre ++ s ++ post.
Proof.
  induction t as [|c t IH]; cbn [Py.str_in]; rewrite orb_true_iff, prefix_spec.
  - split.
    + intros [[post H]|H]; [|discriminate]. exists "", post. exact H.
    + intros (pre & post & H). left. exists post.
      destruct pre; [exact H | discriminate].
  - rewrite IH. split.
    + intros [[post H]|(pre & post & H)].
      * exists "", post. exact H.
      * exists (String c pre), post. cbn. now rewrite H.
    + intros (pre & post & H). destruct pre as [|d pre].
      * left. exists post. exact H.
      * right. exists pre, post. cbn in H. congruence.
Qed.

Lemma str_app_assoc (a b c : string) : (a ++ b) ++ c = a ++ (b ++ c).
Proof. induction a as [|x a IH]; cbn; [reflexivity | now rewrite IH]. Qed.






(** [Py.lower] against [str.lower]: ASCII, Latin-1 and Greek text; a capital
    sigma at the end of a word becomes a final sigma. *)
Example lower_examples :
  Py.lower "Southeast Asia" = "southeast asia" /\
  Py.lower "Österreich" = "österreich" /\
  Py.lower "École" = "école" /\
  Py.lower "ΘΕΣΣΑΛΙΑ" = "θεσσαλια" /\
  Py.lower "ΘΕΣ" = "θες" /\
  Py.lower "ΟΔΟΣ ΑΘΗΝΑΣ" = "οδος αθηνας" /\
  Py.lower "Σ" = "σ" /\
  Py.upper "January" = "JANUARY" /\
  Py.str_in "asia" "southeast asia" = true /\
  Py.str_in "" "europe" = true /\
  Py.str_in "europe" "southeast asia" = false /\
  Py.str_in (Py.lower "ΘΕΣ") (Py.lower "ΘΕΣΣΑΛΙΑ") = false.
Proof. repeat split. Qed.

(** ** The exclusion filter *)









(** ** The empty result *)

Lemma rank_loop_all_excluded (preferences : Prefs.t) (cities : list City.t) :
  Forall (fun city => survives preferences city = false) cities ->
  rank_loop preferences cities = Py.Ok [].
Proof.
  induction 1 as [|city rest Hc _ IH]; [reflexivity|].
  cbn [rank_loop]. unfold survives in Hc. apply negb_false_iff in Hc.
  now rewrite Hc.
Qed.

Lemma slice_to_nil {A : Type} (n : Z) : Py.slice_to (@nil A) n = [].
Proof. unfold Py.slice_to. apply firstn_nil. Qed.

Section FormatEmpty.

Variables format_2f str_num : R -> string.

(** C9. For the empty list the formatter returns one string: it says that
    no destinations matched, names the month and suggests broadening the
    preferences.  [rank_cities] returns the empty list for an empty catalog
    and for a catalog whose cities are all excluded, whatever the month. *)
Theorem format_empty_ranking (month_name : string) (preferences : Prefs.t)
    (top_n : Z) :
  format_results_for_claude format_2f str_num [] month_name
    = Py.Ok (no_match_message month_name) /\
  Py.str_in "No destinations matched" (no_match_message month_name) = true /\
  Py.str_in month_name (no_match_message month_name) = true /\
  Py.str_in "Suggest broadening preferences" (no_match_message month_name) = true /\
  rank_cities [] preferences top_n = Py.Ok [] /\
  (forall cities,
     Forall (fun city => survives preferences city = false) cities ->
     rank_cities cities preferences top_n = Py.Ok []).
Proof.
  split; [reflexivity|].
  split.
  { apply str_in_spec.
    exists "[", (" the criteria for " ++ month_name ++ ". Suggest broadening preferences.]").
    reflexivity. }
  split.
  { apply str_in_spec.
    exists "[No destinations matched the criteria for ",
      ". Suggest broadening preferences.]".
    reflexivity. }
  split.
  { apply str_in_spec.
    exists ("[No destinations matched the criteria for " ++ month_name ++ ". "), ".]".
    unfold no_match_message.
    cbn [append]. now rewrite str_app_assoc. }
  split.
  { unfold rank_cities. cbn [rank_loop Py.bind sort_reverse fold_right].
    now rewrite slice_to_nil. }
  intros cities H. unfold rank_cities.
  rewrite (rank_loop_all_excluded _ _ H). cbn [Py.bind sort_reverse fold_right].
  now rewrite slice_to_nil.
Qed.

End FormatEmpty.

Lemma format_empty_ranking_witness :
  exists ranked,
    rank_cities [oslo; lisbon] january_prefs top_n_default = Py.Ok ranked /\
    format_results_for_claude blank blank ranked "January"
      = Py.Ok "[No destinations matched the criteria for January. Suggest broadening preferences.]".
Proof.
  destruct (format_empty_ranking blank blank "January" january_prefs top_n_default)
    as (Hf & _ & _ & _ & _ & Hr).
  exists []. split; [|exact Hf].
  apply Hr. repeat constructor.
Defined.

(** * Further properties of the code *)

(** ** Temperature scorer: the treatment of the bounds *)

Lemma exp_mono (x y : R) : x <= y -> exp x <= exp y.
Proof.
  intros [H|H]; [left; now apply exp_increasing | subst; lra].
Qed.


Lemma Rmin_Rmax_sum (a b : R) : Rmin a b + Rmax a b = a + b.
Proof. unfold Rmin, Rmax. destruct (Rle_dec a b); lra. Qed.

Lemma Rmin_le_Rmax (a b : R) : Rmin a b <= Rmax a b.
Proof. unfold Rmin, Rmax. destruct (Rle_dec a b); lra. Qed.

(** With at least one bound, the score is that of the window [lo, hi] made
    of the given or synthesised bounds. *)
Lemma score_temperature_window (c : R) (temp_min temp_max : option R) :
  temp_min <> None \/ temp_max <> None ->
  let lo := Rmin (Py.get temp_min (c - 10)) (Py.get temp_max (c + 10)) in
  let hi := Rmax (Py.get temp_min (c - 10)) (Py.get temp_max (c + 10)) in
  score_temperature c temp_min temp_max
  = if Py.leb lo c && Py.leb c hi then in_range_score c lo hi
    else out_of_range_score c lo hi.
Proof.
  intros H. cbv zeta. unfold score_temperature, in_range_score, out_of_range_score.
  destruct temp_min, temp_max; try reflexivity. destruct H; congruence.
Qed.

Lemma score_temperature_window_in (c : R) (temp_min temp_max : option R) :
  temp_min <> None \/ temp_max <> None ->
  Rmin (Py.get temp_min (c - 10)) (Py.get temp_max (c + 10)) <= c ->
  c <= Rmax (Py.get temp_min (c - 10)) (Py.get temp_max (c + 10)) ->
  0.85 <= score_temperature c temp_min temp_max <= 1.
Proof.
  intros H H1 H2. rewrite score_temperature_window by assumption.
  apply leb_true in H1, H2. rewrite H1, H2. apply in_range_score_bounds.
Qed.

(** X1. The two bounds may be given in either order: the scorer sorts them. *)
Theorem score_temperature_bounds_swap (c a b : R) :
  score_temperature c (Some a) (Some b) = score_temperature c (Some b) (Some a).
Proof.
  unfold score_temperature, Py.get.
  now rewrite (Rmin_comm a b), (Rmax_comm a b).
Qed.

(** X2. A temperature between the two bounds (in either order) scores at
    least 0.85 and at most 1; the middle of the range scores exactly 1. *)
Theorem score_temperature_in_range (c a b : R) :
  (Rmin a b <= c <= Rmax a b ->
     0.85 <= score_temperature c (Some a) (Some b) <= 1) /\
  score_temperature ((a + b) / 2) (Some a) (Some b) = 1.
Proof.
  split.
  - intros [H1 H2]. apply score_temperature_window_in; [left; discriminate | |];
      assumption.
  - pose proof (Rmin_Rmax_sum a b) as Hs. pose proof (Rmin_le_Rmax a b) as Hle.
    rewrite score_temperature_window by (left; discriminate). cbn [Py.get].
    replace (Py.leb (Rmin a b) ((a + b) / 2)) with true
      by (symmetry; apply leb_true; lra).
    replace (Py.leb ((a + b) / 2) (Rmax a b)) with true
      by (symmetry; apply leb_true; lra).
    cbn [andb]. unfold in_range_score.
    replace ((a + b) / 2 - (Rmin a b + Rmax a b) / 2) with 0 by lra.
    rewrite Rabs_R0. unfold Rdiv at 1. rewrite Rmult_0_r, Rmult_0_l.
    rewrite Rmax_right by lra. replace (1.0 - 0) with 1 by lra. apply round4_1.
Qed.

Lemma score_temperature_in_range_witness :
  0.85 <= score_temperature 22 (Some 35) (Some 20) <= 1.
Proof.
  apply (score_temperature_in_range 22 35 20).
  rewrite Rmin_right, Rmax_left by lra. lra.
Defined.

(** X3. With one bound only, a city on the right side of it always counts
    as inside the range: the missing bound is put 10 degrees beyond the
    city's own temperature, and the score is at least 0.85. *)
Theorem score_temperature_one_bound_met (c t : R) :
  (t <= c -> 0.85 <= score_temperature c (Some t) None <= 1) /\
  (c <= t -> 0.85 <= score_temperature c None (Some t) <= 1).
Proof.
  split; intros H.
  - apply score_temperature_window_in; [left; discriminate | |]; cbn [Py.get].
    + eapply Rle_trans; [apply Rmin_l | exact H].
    + eapply Rle_trans; [|apply Rmax_r]. lra.
  - apply score_temperature_window_in; [right; discriminate | |]; cbn [Py.get].
    + eapply Rle_trans; [apply Rmin_l | lra].
    + eapply Rle_trans; [|apply Rmax_r]. exact H.
Qed.

Lemma score_temperature_one_bound_met_witness :
  0.85 <= score_temperature 40 (Some 22) None <= 1 /\
  0.85 <= score_temperature (-5) None (Some 10) <= 1.
Proof.
  destruct (score_temperature_one_bound_met 40 22) as [H _].
  destruct (score_temperature_one_bound_met (-5) 10) as [_ H'].
  split; [apply H | apply H']; lra.
Defined.






(** ** Precipitation scorer: saturation and the order of the tolerances *)

Lemma precip_base_300 (p : R) : 300 <= p -> precip_base p = 0.
Proof. intros H. unfold precip_base. rewrite Rmax_left; lra. Qed.

Lemma score_precipitation_medium (p : R) :
  score_precipitation p "medium" = Py.round (precip_base p) 4.
Proof. reflexivity. Qed.

Lemma score_precipitation_low (p : R) :
  score_precipitation p "low" = Py.round (Py.pow (precip_base p) 0.6) 4.
Proof. reflexivity. Qed.

Lemma score_precipitation_high (p : R) :
  score_precipitation p "high" = Py.round (0.5 + precip_base p * 0.5) 4.
Proof. reflexivity. Qed.

(** X5. From 300 mm on, the precipitation score is 0 for the tolerances
    "medium" and "low" and 0.5 for "high"; for "high" it is never below
    0.5, whatever the precipitation. *)
Theorem score_precipitation_saturates (p : R) :
  (300 <= p ->
     score_precipitation p "medium" = 0 /\
     score_precipitation p "low" = 0 /\
     score_precipitation p "high" = 0.5) /\
  0.5 <= score_precipitation p "high".
Proof.
  split.
  - intros H. rewrite score_precipitation_medium, score_precipitation_low,
      score_precipitation_high, (precip_base_300 p H).
    rewrite pow_zero by lra. rewrite round4_0.
    replace (0.5 + 0 * 0.5) with 0.5 by lra.
    rewrite (round4_decimal 5000) by lra. auto.
  - rewrite score_precipitation_high.
    replace 0.5 with (Py.round (IZR 5000 / 10000) 4) at 1 by (rewrite round4_exact; lra).
    apply round_mono. pose proof (precip_base_nonneg p). lra.
Qed.

Lemma score_precipitation_saturates_witness :
  score_precipitation 320 "medium" = 0 /\
  score_precipitation 320 "low" = 0 /\
  score_precipitation 320 "high" = 0.5.
Proof.
  destruct (score_precipitation_saturates 320) as [H _]. apply H. lra.
Defined.

(** For [0 < b <= 1]: [b <= b ** 0.6 <= 0.5 + 0.5 * b]. *)
Lemma pow_06_between (b : R) :
  0 <= b <= 1 -> b <= Py.pow b 0.6 <= 0.5 + b * 0.5.
Proof.
  intros [[Hb|Hb] H1].
  - rewrite pow_pos by assumption. unfold Rpower.
    assert (Ht : ln b <= 0).
    { destruct H1 as [H1|H1].
      - rewrite <- ln_1. left. now apply ln_increasing.
      - subst. rewrite ln_1. lra. }
    set (t := ln b) in *.
    assert (Eb : exp t = b) by (unfold t; now apply exp_ln).
    split.
    + rewrite <- Eb at 1. apply exp_mono. lra.
    + pose proof (exp_pos (0.6 * t)) as Pu.
      pose proof (exp_ineq1_le (0.4 * t)) as Ha.
      pose proof (exp_ineq1_le (- (0.6 * t))) as Hc.
      assert (E1 : exp t = exp (0.6 * t) * exp (0.4 * t)).
      { rewrite <- exp_plus. f_equal. lra. }
      assert (E2 : exp (0.6 * t) * exp (- (0.6 * t)) = 1).
      { rewrite <- exp_plus. replace (0.6 * t + - (0.6 * t)) with 0 by lra. apply exp_0. }
      rewrite <- Eb. rewrite E1.
      set (u := exp (0.6 * t)) in *. set (a := exp (0.4 * t)) in *.
      set (d := exp (- (0.6 * t))) in *.
      assert (Ha' : 0 <= u * (a - (1 + 0.4 * t))) by (apply Rmult_le_pos; lra).
      assert (Hc' : 0 <= u * (d - (1 + - (0.6 * t)))) by (apply Rmult_le_pos; lra).
      assert (Hu1 : u * a <= 1).
      { rewrite <- E1, Eb. lra. }
      nra.
  - subst. rewrite pow_zero by lra. lra.
Qed.

(** X6. For a precipitation of 0 mm or more, tolerance "medium" gives the
    lowest score, "low" a score at least as high, and "high" the highest:
    the transform [base ** 0.6] of "low" raises the base score. *)
Theorem score_precipitation_tolerance_order (p : R) :
  0 <= p ->
  score_precipitation p "medium" <= score_precipitation p "low" /\
  score_precipitation p "low" <= score_precipitation p "high".
Proof.
  intros H. rewrite score_precipitation_medium, score_precipitation_low,
    score_precipitation_high.
  pose proof (precip_base_nonneg p) as H0. pose proof (precip_base_le_1 p H) as H1.
  destruct (pow_06_between (precip_base p) (conj H0 H1)) as [Ha Hb].
  split; apply round_mono; assumption.
Qed.

Lemma score_precipitation_tolerance_order_witness :
  score_precipitation 150 "medium" <= score_precipitation 150 "low" /\
  score_precipitation 150 "low" <= score_precipitation 150 "high".
Proof. apply score_precipitation_tolerance_order. lra. Defined.

(** ** Tag scorer *)

Lemma filter_all {A : Type} (f : A -> bool) (l : list A) :
  (forall x, In x l -> f x = true) -> filter f l = l.
Proof.
  induction l as [|x l IH]; intros H; [reflexivity|].
  cbn [filter]. rewrite (H x) by now left.
  f_equal. apply IH. intros y Hy. apply H. now right.
Qed.

Lemma filter_none {A : Type} (f : A -> bool) (l : list A) :
  (forall x, In x l -> f x = false) -> filter f l = [].
Proof.
  induction l as [|x l IH]; intros H; [reflexivity|].
  cbn [filter]. rewrite (H x) by now left.
  apply IH. intros y Hy. apply H. now right.
Qed.

Lemma filter_length_pointwise {A : Type} (f g : A -> bool) (l : list A) :
  (forall x, In x l -> f x = true -> g x = true) ->
  (length (filter f l) <= length (filter g l))%nat.
Proof.
  induction l as [|x l IH]; intros H; [reflexivity|].
  assert (IH' : (length (filter f l) <= length (filter g l))%nat).
  { apply IH. intros y Hy. apply H. now right. }
  cbn [filter]. destruct (f x) eqn:Ef.
  - rewrite (H x (or_introl eq_refl) Ef). cbn [length]. lia.
  - destruct (g x); cbn [length]; lia.
Qed.

Lemma str_in_refl (s : string) : Py.str_in s s = true.
Proof. apply str_in_spec. exists ""%string, ""%string. cbn. induction s; cbn; congruence. Qed.

Lemma tag_matches_true (city_tags_l : list string) (pt : string) :
  tag_matches city_tags_l pt = true <->
  exists ct, In ct city_tags_l /\
    (ct = pt \/ Py.str_in pt ct = true \/ Py.str_in ct pt = true).
Proof.
  unfold tag_matches. rewrite orb_true_iff, !existsb_exists. split.
  - intros [(ct & Hin & E)|(ct & Hin & E)].
    + apply String.eqb_eq in E. exists ct. auto.
    + apply orb_true_iff in E. exists ct. tauto.
  - intros (ct & Hin & [E|E]).
    + left. exists ct. split; [assumption|]. apply String.eqb_eq. auto.
    + right. exists ct. split; [assumption|]. now apply orb_true_iff.
Qed.

Lemma score_tags_ratio (ct pt : list string) :
  pt <> [] -> ct <> [] ->
  score_tags ct pt
  = Py.round
      (Rmin 1.0
         (INR (length (filter (tag_matches (map Py.lower ct)) (map Py.lower pt)))
          / INR (length (map Py.lower pt)))) 4.
Proof.
  intros Hp Hc. unfold score_tags.
  destruct pt; [congruence|]. destruct ct; [congruence|]. reflexivity.
Qed.

(** X7. With preferred tags and city tags both present: when every
    preferred tag equals some city tag up to letter case the score is 1;
    when no preferred tag equals, contains or is contained in a city tag
    the score is 0, which is below the 0.2 of a city without any tag. *)
Theorem score_tags_all_or_none (city_tags preferred_tags : list string) :
  preferred_tags <> [] -> city_tags <> [] ->
  ((forall p, In p preferred_tags ->
      exists c, In c city_tags /\ Py.lower c = Py.lower p) ->
   score_tags city_tags preferred_tags = 1) /\
  ((forall p c, In p preferred_tags -> In c city_tags ->
      Py.str_in (Py.lower p) (Py.lower c) = false /\
      Py.str_in (Py.lower c) (Py.lower p) = false) ->
   score_tags city_tags preferred_tags = 0 /\
   score_tags [] preferred_tags = 0.2).
Proof.
  intros Hp Hc.
  assert (Hn : 0 < INR (length (map Py.lower preferred_tags))).
  { apply lt_0_INR. rewrite length_map. destruct preferred_tags; [congruence|].
    cbn [length]. lia. }
  split; intros H.
  - rewrite score_tags_ratio by assumption. rewrite filter_all.
    + unfold Rdiv. rewrite Rinv_r by lra. rewrite Rmin_right by lra. apply round4_1.
    + intros x Hx. apply in_map_iff in Hx. destruct Hx as (p & <- & Hin).
      destruct (H p Hin) as (c & Hcin & E). apply tag_matches_true.
      exists (Py.lower c). split; [now apply in_map | now left].
  - split.
    + rewrite score_tags_ratio by assumption. rewrite filter_none.
      * cbn [length INR]. unfold Rdiv. rewrite Rmult_0_l.
        rewrite Rmin_right by lra. apply round4_0.
      * intros x Hx. apply in_map_iff in Hx. destruct Hx as (p & <- & Hin).
        destruct (tag_matches (map Py.lower city_tags) (Py.lower p)) eqn:E;
          [|reflexivity].
        apply tag_matches_true in E. destruct E as (ct & Hct & E).
        apply in_map_iff in Hct. destruct Hct as (c & <- & Hcin).
        destruct (H p c Hin Hcin) as [H1 H2].
        destruct E as [E|[E|E]]; try congruence.
        rewrite E, str_in_refl in H1. discriminate.
    + unfold score_tags. destruct preferred_tags; [congruence | reflexivity].
Qed.

Lemma score_tags_all_or_none_witness :
  score_tags ["Beach"; "City"; "Food"]%string ["beach"; "FOOD"]%string = 1 /\
  score_tags ["ski"; "mountain"]%string ["beach"; "diving"]%string = 0.
Proof.
  destruct (score_tags_all_or_none ["Beach"; "City"; "Food"]%string
              ["beach"; "FOOD"]%string) as [H _]; try discriminate.
  destruct (score_tags_all_or_none ["ski"; "mountain"]%string
              ["beach"; "diving"]%string) as [_ H']; try discriminate.
  split.
  - apply H. intros p [<-|[<-|[]]].
    + exists "Beach"%string. split; [simpl; auto | reflexivity].
    + exists "Food"%string. split; [simpl; auto | reflexivity].
  - apply H'. intros p c [<-|[<-|[]]] [<-|[<-|[]]]; split; reflexivity.
Defined.

(** X8. For a city that has tags, more tags never lower the tag score. *)
Theorem score_tags_more_tags (city_tags city_tags' preferred_tags : list string) :
  city_tags <> [] -> incl city_tags city_tags' ->
  score_tags city_tags preferred_tags <= score_tags city_tags' preferred_tags.
Proof.
  intros Hc Hincl.
  assert (Hc' : city_tags' <> []).
  { destruct city_tags as [|c l]; [congruence|]. intros E.
    specialize (Hincl c (or_introl eq_refl)). rewrite E in Hincl. contradiction. }
  destruct preferred_tags as [|p ps] eqn:Ep.
  - unfold score_tags. cbn [is_empty]. lra.
  - rewrite <- Ep. assert (Hp : preferred_tags <> []) by (rewrite Ep; discriminate).
    rewrite !score_tags_ratio by assumption.
    assert (Hn : 0 < INR (length (map Py.lower preferred_tags))).
    { apply lt_0_INR. rewrite length_map, Ep. cbn [length]. lia. }
    apply round_mono. apply Rle_min_compat_l.
    apply Rmult_le_compat_r; [left; now apply Rinv_0_lt_compat|].
    apply le_INR, filter_length_pointwise.
    intros x _ Hx. apply tag_matches_true in Hx. destruct Hx as (ct & Hct & E).
    apply tag_matches_true. exists ct. split; [|exact E].
    apply in_map_iff in Hct. destruct Hct as (c & <- & Hcin).
    apply in_map. now apply Hincl.
Qed.

Lemma score_tags_more_tags_witness :
  score_tags ["city"]%string ["beach"; "city"]%string
  <= score_tags ["city"; "beach"]%string ["beach"; "city"]%string.
Proof.
  apply score_tags_more_tags; [discriminate|].
  intros x [<-|[]]. simpl. auto.
Defined.

(** ** When [rank_cities] returns and when it raises *)

Lemma index_returns_iff {A : Type} (l : list A) (i : Z) :
  (exists a, Py.index l i = Py.Ok a) <-> index_ok l i.
Proof.
  split; [|apply index_in_range].
  intros [a H]. unfold Py.index in H. unfold index_ok.
  set (j := if (i <? 0)%Z then (i + Z.of_nat (length l))%Z else i) in *.
  destruct (j <? 0)%Z eqn:Ej; [discriminate|]. apply Z.ltb_ge in Ej.
  destruct (nth_error l (Z.to_nat j)) eqn:En; [|discriminate].
  assert (Hlt : (Z.to_nat j < length l)%nat).
  { apply nth_error_Some. congruence. }
  unfold j in *. destruct (i <? 0)%Z eqn:Ei;
    [apply Z.ltb_lt in Ei | apply Z.ltb_ge in Ei]; lia.
Qed.

Lemma index_raises {A : Type} (l : list A) (i : Z) :
  ~ index_ok l i -> Py.index l i = Py.Raise Py.IndexError.
Proof.
  intros H. destruct (Py.index l i) as [a|e] eqn:E.
  - exfalso. apply H. apply index_returns_iff. now exists a.
  - unfold Py.index in E.
    destruct (_ <? 0)%Z; [congruence|].
    destruct (nth_error _ _); congruence.
Qed.

Lemma score_city_returns_iff (preferences : Prefs.t) (city : City.t) :
  (exists x, score_city preferences city = Py.Ok x) <-> scorable preferences city.
Proof.
  split.
  - intros [x H].
    destruct (score_city_inv _ _ _ H)
      as (temps & precips & t & p & Et & It & Ep & Ip & _).
    exists temps, precips. repeat split; try assumption;
      apply index_returns_iff; eauto.
  - intros (temps & precips & Et & Ep & It & Ip).
    apply index_returns_iff in It, Ip. destruct It as [t It]. destruct Ip as [p Ip].
    unfold score_city. rewrite Et, Ep. cbn [Py.item Py.bind].
    rewrite It. cbn [Py.bind]. rewrite Ip. cbn [Py.bind]. eexists. reflexivity.
Qed.

Lemma rank_loop_returns_iff (preferences : Prefs.t) (cities : list City.t) :
  (exists results, rank_loop preferences cities = Py.Ok results) <->
  Forall (scorable preferences) (filter (survives preferences) cities).
Proof.
  induction cities as [|city rest IH].
  - split; [constructor | now exists []].
  - cbn [rank_loop filter]. unfold survives at 1.
    destruct (excluded (exclude preferences) city); cbn [negb]; [exact IH|].
    split.
    + intros [results H].
      destruct (score_city preferences city) as [x|] eqn:Ex; [|discriminate].
      cbn [Py.bind] in H.
      destruct (rank_loop preferences rest) as [xs|] eqn:Er; [|discriminate].
      constructor.
      * apply score_city_returns_iff. now exists x.
      * apply IH. now exists xs.
    + intros H. inversion H as [|? ? Hc Hr]; subst.
      apply score_city_returns_iff in Hc. destruct Hc as [x ->].
      apply IH in Hr. destruct Hr as [xs ->]. cbn [Py.bind]. eexists. reflexivity.
Qed.

(** X9. [rank_cities] returns a list exactly when every city that passes
    the exclusion filter has both monthly arrays and the month index falls
    inside both; otherwise it raises.  Excluded cities are never read. *)
Theorem rank_cities_returns_iff (cities : list City.t) (preferences : Prefs.t)
    (top_n : Z) :
  (exists out, rank_cities cities preferences top_n = Py.Ok out) <->
  Forall (scorable preferences) (filter (survives preferences) cities).
Proof.
  rewrite <- rank_loop_returns_iff. unfold rank_cities. split.
  - intros [out H].
    destruct (rank_loop preferences cities) as [results|]; [|discriminate].
    now exists results.
  - intros [results ->]. cbn [Py.bind]. eexists. reflexivity.
Qed.

(** A catalog whose one European entry has no monthly arrays at all. *)
Lemma rank_cities_returns_iff_witness :
  exists out,
    rank_cities [City.mk (Some "Ghost"%string) None (Some "Europe"%string)
                   None None None None None; bangkok]
      january_prefs top_n_default = Py.Ok out.
Proof.
  apply rank_cities_returns_iff.
  change (Forall (scorable january_prefs) [bangkok]).
  constructor; [|constructor].
  eexists. eexists. repeat split; try reflexivity; cbv; congruence.
Defined.

(** X10. On a catalog whose arrays have 12 entries, a month index outside
    -12..11 (a [travel_month] above 12 or below -11) makes [rank_cities]
    raise [IndexError] as soon as one city passes the exclusion filter. *)
Theorem rank_cities_month_out_of_range (cities : list City.t)
    (preferences : Prefs.t) (top_n : Z) :
  Forall wf_city cities ->
  ~ (-12 <= month_0 preferences < 12)%Z ->
  (exists city, In city cities /\ survives preferences city = true) ->
  rank_cities cities preferences top_n = Py.Raise Py.IndexError.
Proof.
  intros Hwf Hm Hex.
  assert (Hloop : rank_loop preferences cities = Py.Raise Py.IndexError).
  { induction Hwf as [|city rest Hc _ IH]; [destruct Hex as (c & [] & _)|].
    cbn [rank_loop]. destruct (excluded (exclude preferences) city) eqn:Ee.
    - apply IH. destruct Hex as (c & [<-|Hin] & Hs); [|now exists c].
      unfold survives in Hs. rewrite Ee in Hs. discriminate.
    - destruct Hc as (temps & precips & Et & Ep & Lt & Lp).
      unfold score_city. rewrite Et. cbn [Py.item Py.bind].
      rewrite index_raises; [reflexivity|]. unfold index_ok. rewrite Lt. lia. }
  unfold rank_cities. now rewrite Hloop.
Qed.

Lemma rank_cities_month_out_of_range_witness :
  rank_cities catalog month_13_prefs top_n_default = Py.Raise Py.IndexError.
Proof.
  apply rank_cities_month_out_of_range.
  - exact catalog_wf.
  - cbv. intros [_ H]. discriminate H.
  - exists oslo. split; [left; reflexivity | reflexivity].
Defined.

(** ** What the truncation keeps *)

Lemma sort_reverse_length {A : Type} (key : A -> R) (l : list A) :
  length (sort_reverse key l) = length l.
Proof. apply Permutation_length, sort_reverse_perm. Qed.

Lemma slice_to_length_exact {A : Type} (l : list A) (n : Z) :
  Z.of_nat (length (Py.slice_to l n))
  = if (n <? 0)%Z then Z.max 0 (n + Z.of_nat (length l))
    else Z.min n (Z.of_nat (length l)).
Proof.
  unfold Py.slice_to. rewrite length_firstn.
  destruct (n <? 0)%Z eqn:E; [apply Z.ltb_lt in E | apply Z.ltb_ge in E]; lia.
Qed.

(** X11. The number of candidates returned: [num_results] or the number of
    surviving cities, whichever is smaller, when [num_results] is not
    negative; for a negative [num_results] the last [-num_results]
    candidates of the ranking are cut off instead. *)
Theorem rank_cities_length (cities : list City.t) (preferences : Prefs.t)
    (top_n : Z) (out : list Candidate.t) :
  rank_cities cities preferences top_n = Py.Ok out ->
  let num_results := Py.get (Prefs.num_results preferences) top_n in
  let survivors := Z.of_nat (length (filter (survives preferences) cities)) in
  Z.of_nat (length out)
  = if (num_results <? 0)%Z then Z.max 0 (num_results + survivors)
    else Z.min num_results survivors.
Proof.
  intros H num_results survivors.
  destruct (rank_cities_inv _ _ _ _ H) as (results & Hloop & ->).
  rewrite slice_to_length_exact, sort_reverse_length.
  unfold survivors. now rewrite (Forall2_length (rank_loop_spec _ _ _ Hloop)).
Qed.

Lemma rank_cities_length_witness :
  Z.of_nat (length [bangkok_in_january]) = Z.min 8 1.
Proof.
  exact (rank_cities_length catalog january_prefs top_n_default
           [bangkok_in_january] end_to_end_europe_excluded).
Defined.

Lemma descending_app_order {A : Type} (key : A -> R) (l l' : list A) (x y : A) :
  descending key (l ++ l') -> In x l -> In y l' -> key y <= key x.
Proof.
  unfold descending. induction l as [|a l IH]; intros H Hx Hy; [contradiction|].
  cbn [app] in H. inversion H as [|? ? Hs Hf]; subst.
  destruct Hx as [<-|Hx].
  - rewrite Forall_forall in Hf. apply Hf. apply in_or_app. now right.
  - now apply IH.
Qed.

(** X12. Truncation keeps the best: the returned list together with the
    candidates left out is a rearrangement of the scored candidates, and no
    candidate left out has a higher final score than a returned one. *)
Theorem rank_cities_keeps_best (cities : list City.t) (preferences : Prefs.t)
    (top_n : Z) (out : list Candidate.t) :
  rank_cities cities preferences top_n = Py.Ok out ->
  exists results rest,
    Forall2 (fun city x => score_city preferences city = Py.Ok x)
      (filter (survives preferences) cities) results /\
    Permutation results (out ++ rest) /\
    forall x y, In x out -> In y rest -> final_of y <= final_of x.
Proof.
  intros H. destruct (rank_cities_inv _ _ _ _ H) as (results & Hloop & ->).
  destruct (slice_to_prefix (sort_reverse final_of results)
              (Py.get (Prefs.num_results preferences) top_n)) as [rest Hrest].
  exists results, rest. split; [now apply rank_loop_spec|]. split.
  - rewrite <- Hrest. symmetry. apply sort_reverse_perm.
  - intros x y Hx Hy. eapply descending_app_order; [|exact Hx|exact Hy].
    rewrite <- Hrest. apply sort_reverse_descending.
Qed.

Lemma ranking_top_two :
  rank_cities catalog (with_num_results no_prefs 2) top_n_default
  = Py.Ok [bangkok_any; oslo_any].
Proof.
  unfold rank_cities.
  change (rank_loop (with_num_results no_prefs 2) catalog)
    with (rank_loop no_prefs catalog).
  rewrite rank_loop_no_prefs.
  cbn [Py.bind]. rewrite sort_with_tie. reflexivity.
Qed.

(** Two results out of the three cities of the catalog: one candidate is
    left out, and it does not outscore Bangkok or Oslo. *)
Lemma rank_cities_keeps_best_witness :
  rank_cities catalog (with_num_results no_prefs 2) top_n_default
  = Py.Ok [bangkok_any; oslo_any] /\
  exists results rest,
    Permutation results ([bangkok_any; oslo_any] ++ rest) /\
    length results = 3%nat /\ length rest = 1%nat /\
    forall y, In y rest ->
      final_of y <= final_of bangkok_any /\ final_of y <= final_of oslo_any.
Proof.
  split; [exact ranking_top_two|].
  destruct (rank_cities_keeps_best catalog (with_num_results no_prefs 2)
              top_n_default [bangkok_any; oslo_any] ranking_top_two)
    as (results & rest & Hf & Hp & Hbest).
  exists results, rest.
  assert (Hlen : length results = 3%nat).
  { rewrite <- (Forall2_length Hf). reflexivity. }
  split; [exact Hp|]. split; [exact Hlen|]. split.
  - apply Permutation_length in Hp. rewrite length_app in Hp. cbn [length] in Hp. lia.
  - intros y Hy. split; apply Hbest; simpl; auto.
Defined.

Lemma firstn_min_length {A : Type} (k : nat) (l : list A) :
  firstn (Nat.min k (length l)) l = firstn k l.
Proof.
  destruct (Nat.le_gt_cases k (length l)) as [H|H].
  - now rewrite Nat.min_l.
  - rewrite Nat.min_r by lia. rewrite firstn_all. symmetry. apply firstn_all2. lia.
Qed.

Lemma slice_to_nonneg {A : Type} (l : list A) (n : Z) :
  (0 <= n)%Z -> Py.slice_to l n = firstn (Z.to_nat n) l.
Proof.
  intros H. unfold Py.slice_to.
  destruct (n <? 0)%Z eqn:E; [apply Z.ltb_lt in E; lia|].
  rewrite <- (firstn_min_length (Z.to_nat n)). f_equal. lia.
Qed.

Lemma rank_loop_with_num_results (preferences : Prefs.t) (n : Z)
    (cities : list City.t) :
  rank_loop (with_num_results preferences n) cities = rank_loop preferences cities.
Proof.
  induction cities as [|city rest IH]; [reflexivity|].
  cbn [rank_loop]. rewrite IH. reflexivity.
Qed.

(** X13. Asking for fewer results gives the beginning of the longer
    answer: nothing is rescored or reordered when [num_results] changes. *)
Theorem rank_cities_fewer_results (cities : list City.t) (preferences : Prefs.t)
    (top_n n m : Z) (out : list Candidate.t) :
  (0 <= n <= m)%Z ->
  rank_cities cities (with_num_results preferences m) top_n = Py.Ok out ->
  rank_cities cities (with_num_results preferences n) top_n
  = Py.Ok (firstn (Z.to_nat n) out).
Proof.
  intros Hnm H. unfold rank_cities in *.
  rewrite rank_loop_with_num_results in *.
  destruct (rank_loop preferences cities) as [results|]; [|discriminate].
  cbn [Py.bind with_num_results Prefs.num_results Py.get] in *.
  injection H as <-. f_equal.
  rewrite !slice_to_nonneg by lia. rewrite firstn_firstn. f_equal. lia.
Qed.

Lemma rank_cities_fewer_results_witness :
  rank_cities catalog (with_num_results january_prefs 0) top_n_default
  = Py.Ok (firstn 0 [bangkok_in_january]).
Proof.
  apply (rank_cities_fewer_results catalog january_prefs top_n_default 0 8).
  - lia.
  - rewrite <- end_to_end_europe_excluded. unfold rank_cities.
    now rewrite rank_loop_with_num_results.
Defined.

(** ** The scores of a candidate *)

Lemma four_decimals_round (x : R) : four_decimals (Py.round x 4).
Proof. exists (Py.half_even (x * IZR (10 ^ Z.of_nat 4))). reflexivity. Qed.

Lemma four_decimals_fixed (v : R) : four_decimals v -> Py.round v 4 = v.
Proof. intros [k ->]. apply round4_exact. Qed.

Lemma four_decimals_of (k : Z) (v : R) : v = IZR k / 10000 -> four_decimals v.
Proof. intros ->. now exists k. Qed.

Lemma four_decimals_Rmin (a b : R) :
  four_decimals a -> four_decimals b -> four_decimals (Rmin a b).
Proof. intros Ha Hb. unfold Rmin. now destruct (Rle_dec a b). Qed.

Lemma four_decimals_Rmax (a b : R) :
  four_decimals a -> four_decimals b -> four_decimals (Rmax a b).
Proof. intros Ha Hb. unfold Rmax. now destruct (Rle_dec a b). Qed.

Lemma score_temperature_four_decimals (c : R) (temp_min temp_max : option R) :
  four_decimals (score_temperature c temp_min temp_max).
Proof.
  destruct (score_temperature_cases c temp_min temp_max) as [E|[E|E]]; rewrite E.
  - apply (four_decimals_of 6500). lra.
  - apply four_decimals_round.
  - apply four_decimals_round.
Qed.

Lemma score_precipitation_four_decimals (p : R) (rain_tolerance : string) :
  four_decimals (score_precipitation p rain_tolerance).
Proof.
  unfold score_precipitation.
  destruct (String.eqb rain_tolerance "low");
    [|destruct (String.eqb rain_tolerance "high")]; apply four_decimals_round.
Qed.

Lemma score_crowd_four_decimals (month : Z) (peak_months shoulder_months : list Z)
    (crowd_preference : string) :
  four_decimals (score_crowd month peak_months shoulder_months crowd_preference).
Proof.
  unfold score_crowd, table_get.
  destruct (String.eqb crowd_preference "off_peak");
    [|destruct (String.eqb crowd_preference "shoulder");
      [|destruct (String.eqb crowd_preference "any")]];
    destruct (classify month peak_months shoulder_months);
    unfold row_off_peak, row_shoulder, row_any;
    first [ apply (four_decimals_of 10000); lra | apply (four_decimals_of 5500); lra
          | apply (four_decimals_of 500); lra | apply (four_decimals_of 7000); lra
          | apply (four_decimals_of 2500); lra | apply (four_decimals_of 8500); lra
          | apply (four_decimals_of 7500); lra ].
Qed.

Lemma score_tags_four_decimals (city_tags preferred_tags : list string) :
  four_decimals (score_tags city_tags preferred_tags).
Proof.
  unfold score_tags. destruct (is_empty preferred_tags).
  - apply (four_decimals_of 6500). lra.
  - destruct (is_empty city_tags).
    + apply (four_decimals_of 2000). lra.
    + apply four_decimals_round.
Qed.

(** X14. Every score of a returned candidate has at most four decimal
    places: each is the result of [round(., 4)] or a constant of the code
    with at most two decimals. *)
Theorem scores_four_decimals (cities : list City.t) (preferences : Prefs.t)
    (top_n : Z) (out : list Candidate.t) (x : Candidate.t) :
  rank_cities cities preferences top_n = Py.Ok out -> In x out ->
  let s := Candidate.scores x in
  four_decimals (Scores.temp s) /\ four_decimals (Scores.rain s) /\
  four_decimals (Scores.crowd s) /\ four_decimals (Scores.tags s) /\
  four_decimals (Scores.final s).
Proof.
  intros H Hx s.
  destruct (rank_cities_In _ _ _ _ _ H Hx) as (city & _ & _ & Hs).
  destruct (score_city_inv _ _ _ Hs)
    as (temps & precips & t & p & _ & _ & _ & _ & _ & _ & _ & Et & Er & Ec & Eg & Ef).
  unfold final_of in Ef. fold s in Et, Er, Ec, Eg, Ef.
  rewrite Et, Er, Ec, Eg. rewrite Ef.
  split; [apply score_temperature_four_decimals|].
  split; [apply score_precipitation_four_decimals|].
  split; [apply score_crowd_four_decimals|].
  split; [apply score_tags_four_decimals | apply four_decimals_round].
Qed.

Lemma scores_four_decimals_witness :
  four_decimals (Scores.final (Candidate.scores bangkok_in_january)).
Proof.
  apply (scores_four_decimals catalog january_prefs top_n_default
           [bangkok_in_january] bangkok_in_january end_to_end_europe_excluded
           (or_introl eq_refl)).
Defined.

(** X15. The final score lies between the smallest and the largest of the
    four component scores: the weights are not negative and sum to 1, and
    rounding cannot leave the range of four-decimal components. *)
Theorem final_between_components (cities : list City.t) (preferences : Prefs.t)
    (top_n : Z) (out : list Candidate.t) (x : Candidate.t) :
  rank_cities cities preferences top_n = Py.Ok out -> In x out ->
  let s := Candidate.scores x in
  Rmin (Rmin (Scores.temp s) (Scores.rain s)) (Rmin (Scores.crowd s) (Scores.tags s))
  <= Scores.final s
  <= Rmax (Rmax (Scores.temp s) (Scores.rain s)) (Rmax (Scores.crowd s) (Scores.tags s)).
Proof.
  intros H Hx s.
  destruct (rank_cities_In _ _ _ _ _ H Hx) as (city & _ & _ & Hs).
  destruct (score_city_inv _ _ _ Hs)
    as (temps & precips & t & p & _ & _ & _ & _ & _ & _ & _ & Et & Er & Ec & Eg & Ef).
  unfold final_of in Ef. fold s in Et, Er, Ec, Eg, Ef.
  assert (Dt : four_decimals (Scores.temp s))
    by (rewrite Et; apply score_temperature_four_decimals).
  assert (Dr : four_decimals (Scores.rain s))
    by (rewrite Er; apply score_precipitation_four_decimals).
  assert (Dc : four_decimals (Scores.crowd s))
    by (rewrite Ec; apply score_crowd_four_decimals).
  assert (Dg : four_decimals (Scores.tags s))
    by (rewrite Eg; apply score_tags_four_decimals).
  set (lo := Rmin (Rmin (Scores.temp s) (Scores.rain s))
                  (Rmin (Scores.crowd s) (Scores.tags s))).
  set (hi := Rmax (Rmax (Scores.temp s) (Scores.rain s))
                  (Rmax (Scores.crowd s) (Scores.tags s))).
  assert (Dlo : four_decimals lo) by (repeat apply four_decimals_Rmin; assumption).
  assert (Dhi : four_decimals hi) by (repeat apply four_decimals_Rmax; assumption).
  assert (Hlo : lo <= Scores.temp s /\ lo <= Scores.rain s /\
                lo <= Scores.crowd s /\ lo <= Scores.tags s).
  { unfold lo. repeat split.
    - eapply Rle_trans; [apply Rmin_l | apply Rmin_l].
    - eapply Rle_trans; [apply Rmin_l | apply Rmin_r].
    - eapply Rle_trans; [apply Rmin_r | apply Rmin_l].
    - eapply Rle_trans; [apply Rmin_r | apply Rmin_r]. }
  assert (Hhi : Scores.temp s <= hi /\ Scores.rain s <= hi /\
                Scores.crowd s <= hi /\ Scores.tags s <= hi).
  { unfold hi. repeat split.
    - eapply Rle_trans; [apply Rmax_l | apply Rmax_l].
    - eapply Rle_trans; [apply Rmax_r | apply Rmax_l].
    - eapply Rle_trans; [apply Rmax_l | apply Rmax_r].
    - eapply Rle_trans; [apply Rmax_r | apply Rmax_r]. }
  rewrite Ef. split.
  - rewrite <- (four_decimals_fixed lo Dlo) at 1. apply round_mono.
    unfold W_TEMP, W_RAIN, W_CROWD, W_TAGS. lra.
  - rewrite <- (four_decimals_fixed hi Dhi). apply round_mono.
    unfold W_TEMP, W_RAIN, W_CROWD, W_TAGS. lra.
Qed.

Lemma final_between_components_witness :
  Rmin (Rmin 0.95 0.9667) (Rmin 1.0 0.65) <= 0.935
  <= Rmax (Rmax 0.95 0.9667) (Rmax 1.0 0.65).
Proof.
  exact (final_between_components catalog january_prefs top_n_default
           [bangkok_in_january] bangkok_in_january end_to_end_europe_excluded
           (or_introl eq_refl)).
Defined.

(** ** More on the exclusion filter *)

Lemma str_in_empty (t : string) : Py.str_in ""%string t = true.
Proof. destruct t; reflexivity. Qed.

(** X16. An empty string among the exclusion terms occurs in every region:
    every city is dropped and [rank_cities] returns the empty list. *)
Theorem empty_exclusion_term_drops_all (cities : list City.t)
    (preferences : Prefs.t) (top_n : Z) :
  In ""%string (Py.get (Prefs.exclude_regions preferences) []) ->
  (forall city, survives preferences city = false) /\
  rank_cities cities preferences top_n = Py.Ok [].
Proof.
  intros H.
  assert (Hall : forall city, survives preferences city = false).
  { intros city. unfold survives. apply negb_false_iff.
    unfold excluded, exclude. apply existsb_exists. exists ""%string. split.
    - change ""%string with (Py.lower ""%string). now apply in_map.
    - now rewrite str_in_empty. }
  split; [exact Hall|].
  unfold rank_cities. rewrite rank_loop_all_excluded.
  - cbn [Py.bind sort_reverse fold_right]. now rewrite slice_to_nil.
  - apply Forall_forall. intros city _. apply Hall.
Qed.

Lemma empty_exclusion_term_drops_all_witness :
  rank_cities catalog
    (Prefs.mk (Some 3%Z) None None None None None (Some ["oceania"; ""]%string) None)
    top_n_default = Py.Ok [].
Proof.
  apply empty_exclusion_term_drops_all. simpl. auto.
Defined.

Section SortFilter.

Context {A : Type} (key : A -> R) (keep : A -> bool).

Lemma descending_filter (l : list A) :
  descending key l -> descending key (filter keep l).
Proof.
  unfold descending. induction 1 as [|x l Hl IH Hx]; cbn [filter]; [constructor|].
  destruct (keep x); [|exact IH]. constructor; [exact IH|].
  rewrite Forall_forall in *. intros y Hy. apply filter_In in Hy. now apply Hx.
Qed.

Lemma filter_filter_swap (f g : A -> bool) (l : list A) :
  filter f (filter g l) = filter g (filter f l).
Proof.
  induction l as [|x l IH]; [reflexivity|].
  cbn [filter]. destruct (f x) eqn:Ef, (g x) eqn:Eg; cbn [filter];
    rewrite ?Ef, ?Eg, IH; reflexivity.
Qed.

(** Sorting after removing elements is removing them after sorting. *)
Lemma sort_reverse_filter (l : list A) :
  sort_reverse key (filter keep l) = filter keep (sort_reverse key l).
Proof.
  symmetry. apply sort_reverse_unique.
  - apply descending_filter, sort_reverse_descending.
  - intros v. unfold with_key.
    rewrite filter_filter_swap. fold (with_key key v (sort_reverse key l)).
    rewrite sort_reverse_stable. unfold with_key. apply filter_filter_swap.
Qed.

End SortFilter.

Lemma score_city_without_exclusions (preferences : Prefs.t) (city : City.t) :
  score_city (without_exclusions preferences) city = score_city preferences city.
Proof. reflexivity. Qed.

Lemma rank_loop_without_exclusions (preferences : Prefs.t) (cities : list City.t)
    (all : list Candidate.t) :
  rank_loop (without_exclusions preferences) cities = Py.Ok all ->
  rank_loop preferences cities = Py.Ok (filter (candidate_survives preferences) all).
Proof.
  revert all. induction cities as [|city rest IH]; intros all H.
  - injection H as <-. reflexivity.
  - cbn [rank_loop] in *.
    change (excluded (exclude (without_exclusions preferences)) city) with false in H.
    cbv iota in H. rewrite score_city_without_exclusions in H.
    destruct (score_city preferences city) as [x|] eqn:Ex; [|discriminate].
    cbn [Py.bind] in H.
    destruct (rank_loop (without_exclusions preferences) rest) as [xs|];
      [|discriminate].
    cbn [Py.bind] in H. injection H as <-.
    rewrite (IH xs eq_refl). cbn [filter].
    destruct (score_city_inv _ _ _ Ex) as (_ & _ & _ & _ & _ & _ & _ & _ & Hc & _).
    replace (candidate_survives preferences x) with (survives preferences city)
      by (unfold candidate_survives; now rewrite Hc).
    unfold survives. destruct (excluded (exclude preferences) city); reflexivity.
Qed.

(** X17. Exclusion only removes rows: when [num_results] does not truncate,
    the ranking with exclusion terms is the ranking without them
    with the candidates of the excluded cities taken out, in the same
    order and with the same scores. *)
Theorem exclusion_only_removes (cities : list City.t) (preferences : Prefs.t)
    (top_n : Z) (all : list Candidate.t) :
  (Z.of_nat (length cities) <= Py.get (Prefs.num_results preferences) top_n)%Z ->
  rank_cities cities (without_exclusions preferences) top_n = Py.Ok all ->
  rank_cities cities preferences top_n
  = Py.Ok (filter (candidate_survives preferences) all).
Proof.
  intros Hn H. unfold rank_cities in *.
  destruct (rank_loop (without_exclusions preferences) cities) as [results|] eqn:E;
    [|discriminate].
  assert (Hlen : length results = length cities).
  { rewrite <- (Forall2_length (rank_loop_spec _ _ _ E)).
    f_equal. apply filter_all. reflexivity. }
  rewrite (rank_loop_without_exclusions _ _ _ E).
  cbn [Py.bind without_exclusions Prefs.num_results] in *. injection H as <-.
  rewrite !slice_to_all.
  - now rewrite sort_reverse_filter.
  - rewrite sort_reverse_length. lia.
  - rewrite sort_reverse_length.
    pose proof (filter_length_le (candidate_survives preferences) results). lia.
Qed.

Lemma exclusion_only_removes_witness :
  exists all,
    rank_cities catalog (without_exclusions january_prefs) top_n_default = Py.Ok all /\
    rank_cities catalog january_prefs top_n_default
    = Py.Ok (filter (candidate_survives january_prefs) all).
Proof.
  destruct (rank_cities_returns catalog (without_exclusions january_prefs)
              top_n_default catalog_wf) as [all Hall]; [cbv; split; congruence|].
  exists all. split; [exact Hall|].
  apply exclusion_only_removes; [cbv; congruence | exact Hall].
Defined.

(** ** The formatter on a ranking that is not empty *)

Section FormatProperties.

Variables format_2f str_num : R -> string.

Lemma format_entry_returns (i : nat) (x : Candidate.t) :
  printable x ->
  exists name country rest,
    City.name (Candidate.city x) = Some name /\
    City.country (Candidate.city x) = Some country /\
    format_entry format_2f str_num i x
    = Py.Ok (headline format_2f i x name country :: rest).
Proof.
  intros [Hn Hc]. unfold format_entry.
  destruct (City.name (Candidate.city x)) as [name|]; [|congruence].
  destruct (City.country (Candidate.city x)) as [country|]; [|congruence].
  cbn [Py.item Py.bind]. exists name, country. eexists.
  split; [reflexivity|]. split; reflexivity.
Qed.

Lemma format_entry_raises (i : nat) (x : Candidate.t) :
  ~ printable x -> format_entry format_2f str_num i x = Py.Raise Py.KeyError.
Proof.
  intros H. unfold format_entry, printable in *.
  destruct (City.name (Candidate.city x)) as [name|]; [|reflexivity].
  destruct (City.country (Candidate.city x)) as [country|]; [|reflexivity].
  exfalso. apply H. split; discriminate.
Qed.

Lemma printable_dec (x : Candidate.t) : printable x \/ ~ printable x.
Proof.
  unfold printable.
  destruct (City.name (Candidate.city x)), (City.country (Candidate.city x));
    [left; split; discriminate | right; tauto ..].
Qed.

Lemma format_loop_returns (i : nat) (ranked : list Candidate.t) :
  Forall printable ranked ->
  exists blocks, format_loop format_2f str_num i ranked = Py.Ok blocks.
Proof.
  intros H. revert i. induction H as [|x l Hx _ IH]; intros i; [now exists []|].
  cbn [format_loop].
  destruct (format_entry_returns i x Hx) as (name & country & rest & _ & _ & ->).
  destruct (IH (S i)) as [blocks ->]. cbn [Py.bind]. eexists. reflexivity.
Qed.

Lemma format_loop_raises (i : nat) (ranked : list Candidate.t) :
  ~ Forall printable ranked ->
  format_loop format_2f str_num i ranked = Py.Raise Py.KeyError.
Proof.
  revert i. induction ranked as [|x l IH]; intros i H; [exfalso; apply H; constructor|].
  cbn [format_loop]. destruct (printable_dec x) as [Hx|Hx].
  - destruct (format_entry_returns i x Hx) as (name & country & rest & _ & _ & ->).
    cbn [Py.bind]. rewrite IH; [reflexivity|].
    intros Hl. apply H. now constructor.
  - now rewrite format_entry_raises.
Qed.

(** X18. The formatter returns a text exactly when every ranked city has a
    name and a country; when one of them lacks either key it raises
    [KeyError], although [rank_cities] accepts such a city. *)
Theorem format_returns_or_key_error (ranked : list Candidate.t)
    (month_name : string) :
  (Forall printable ranked ->
     exists text,
       format_results_for_claude format_2f str_num ranked month_name = Py.Ok text) /\
  (~ Forall printable ranked ->
     format_results_for_claude format_2f str_num ranked month_name
     = Py.Raise Py.KeyError).
Proof.
  unfold format_results_for_claude. split; intros H.
  - destruct ranked as [|x l]; cbn [is_empty]; [eexists; reflexivity|].
    destruct (format_loop_returns 1 (x :: l) H) as [blocks ->].
    cbn [Py.bind]. eexists. reflexivity.
  - destruct ranked as [|x l]; cbn [is_empty]; [exfalso; apply H; constructor|].
    now rewrite format_loop_raises.
Qed.

End FormatProperties.

Lemma format_returns_or_key_error_witness :
  (exists text,
     format_results_for_claude blank blank [bangkok_in_january] "January" = Py.Ok text) /\
  exists ranked,
    rank_cities [nameless_city] no_prefs top_n_default = Py.Ok ranked /\
    format_results_for_claude blank blank ranked "January" = Py.Raise Py.KeyError.
Proof.
  split.
  - apply (format_returns_or_key_error blank blank [bangkok_in_january] "January").
    repeat constructor; discriminate.
  - eexists. split; [reflexivity|].
    apply (format_returns_or_key_error blank blank).
    intros H. inversion H as [|? ? [Hn _] _]; subst. apply Hn. reflexivity.
Defined.

Lemma Ok_inj {A : Type} (a b : A) : Py.Ok a = Py.Ok b -> a = b.
Proof. intros H. now injection H. Qed.

Lemma str_app_nil_r (s : string) : (s ++ "")%string = s.
Proof. induction s as [|c s IH]; cbn; [reflexivity | now rewrite IH]. Qed.

Lemma str_in_join (sep line : string) (lines : list string) :
  In line lines -> Py.str_in line (Py.join sep lines) = true.
Proof.
  intros H. apply str_in_spec. induction lines as [|x l IH]; [contradiction|].
  destruct H as [<-|H].
  - exists ""%string. destruct l as [|y l].
    + exists ""%string. cbn. now rewrite str_app_nil_r.
    + exists (sep ++ Py.join sep (y :: l))%string. reflexivity.
  - destruct (IH H) as (pre & post & E). destruct l as [|y l]; [contradiction|].
    exists (x ++ sep ++ pre)%string, post.
    change (Py.join sep (x :: y :: l)) with (x ++ sep ++ Py.join sep (y :: l))%string.
    rewrite E. now rewrite !str_app_assoc.
Qed.

Section FormatContents.

Variables format_2f str_num : R -> string.

Lemma format_loop_headlines (i k : nat) (ranked : list Candidate.t)
    (blocks : list string) (x : Candidate.t) :
  format_loop format_2f str_num i ranked = Py.Ok blocks ->
  nth_error ranked k = Some x ->
  exists name country,
    City.name (Candidate.city x) = Some name /\
    City.country (Candidate.city x) = Some country /\
    In (headline format_2f (i + k) x name country) blocks.
Proof.
  revert i k blocks. induction ranked as [|y l IH]; intros i k blocks H Hk.
  - destruct k; discriminate.
  - cbn [format_loop] in H.
    destruct (printable_dec y) as [Hy|Hy];
      [|rewrite (format_entry_raises format_2f str_num i y Hy) in H; discriminate].
    destruct (format_entry_returns format_2f str_num i y Hy)
      as (name & country & rest & En & Ec & E).
    rewrite E in H. cbn [Py.bind] in H.
    destruct (format_loop format_2f str_num (S i) l) as [bs|] eqn:El; [|discriminate].
    cbn [Py.bind] in H. injection H as <-.
    destruct k as [|k].
    + injection Hk as <-. exists name, country. rewrite Nat.add_0_r.
      split; [assumption|]. split; [assumption|]. now left.
    + destruct (IH (S i) k bs El Hk) as (name' & country' & En' & Ec' & Hin).
      exists name', country'. split; [assumption|]. split; [assumption|].
      replace (i + S k)%nat with (S i + k)%nat by lia.
      right. apply in_or_app. now right.
Qed.

(** X19. In the text for a ranking that is not empty, the candidate at
    position [k] (from 0) has its line: the number [k + 1], its city's name
    and country and its final score; and the text carries the month name
    in capitals in its first line. *)
Theorem format_lists_every_city (ranked : list Candidate.t) (month_name text : string)
    (k : nat) (x : Candidate.t) :
  format_results_for_claude format_2f str_num ranked month_name = Py.Ok text ->
  nth_error ranked k = Some x ->
  (exists name country,
     City.name (Candidate.city x) = Some name /\
     City.country (Candidate.city x) = Some country /\
     Py.str_in (headline format_2f (S k) x name country) text = true) /\
  String.prefix ("[DATASET: TOP DESTINATIONS FOR " ++ Py.upper month_name ++ "]")
    text = true.
Proof.
  intros H Hk. unfold format_results_for_claude in H.
  destruct ranked as [|y l]; [destruct k; discriminate|]. cbn [is_empty] in H.
  destruct (format_loop format_2f str_num 1 (y :: l)) as [blocks|] eqn:E;
    [|discriminate].
  cbn [Py.bind] in H. apply Ok_inj in H. subst text. split.
  - destruct (format_loop_headlines 1 k (y :: l) blocks x E Hk)
      as (name & country & En & Ec & Hin).
    exists name, country. split; [assumption|]. split; [assumption|].
    apply str_in_join. apply in_or_app. right. apply in_or_app. left. exact Hin.
  - apply prefix_spec. eexists. reflexivity.
Qed.

End FormatContents.

Lemma format_lists_every_city_witness :
  exists text,
    format_results_for_claude blank blank [bangkok_in_january] "January" = Py.Ok text /\
    Py.str_in "1. Bangkok, Thailand  [Score: ]" text = true /\
    String.prefix "[DATASET: TOP DESTINATIONS FOR JANUARY]" text = true.
Proof.
  eexists. split; [reflexivity|].
  destruct (format_lists_every_city blank blank [bangkok_in_january] "January" _
              0 bangkok_in_january eq_refl eq_refl)
    as ((name & country & En & Ec & Hs) & Hp).
  injection En as <-. injection Ec as <-. split; [exact Hs | exact Hp].
Defined.

(** ** Tool execution *)

Section SearchProperties.

Variable CITIES : list City.t.
Variable CURRENT_MONTH : Z.
Variables format_2f str_num : R -> string.

Lemma index_zero {A : Type} (l : list A) (a : A) :
  Py.index l 0 = Py.Ok a -> nth_error l 0 = Some a.
Proof.
  unfold Py.index. cbn. destruct l as [|b l]; cbn; [discriminate|]. congruence.
Qed.

(** X20. When the tool input has no [travel_month], the text is headed
    with the name of the current month, while every candidate is scored
    and reported from the January entries of its city's arrays: the two
    defaults differ. *)
Theorem execute_search_default_month (tool_input : Prefs.t)
    (ranked : list Candidate.t) (month_name : string) :
  Prefs.travel_month tool_input = None ->
  Py.index MONTH_NAMES (CURRENT_MONTH - 1) = Py.Ok month_name ->
  rank_cities CITIES tool_input top_n_default = Py.Ok ranked ->
  execute_search CITIES CURRENT_MONTH format_2f str_num tool_input
  = format_results_for_claude format_2f str_num ranked month_name /\
  forall x, In x ranked ->
    exists temps precips,
      City.monthly_temp (Candidate.city x) = Some temps /\
      City.monthly_precip (Candidate.city x) = Some precips /\
      nth_error temps 0 = Some (MonthData.temp (Candidate.month_data x)) /\
      nth_error precips 0 = Some (MonthData.precip (Candidate.month_data x)).
Proof.
  intros Hm Hname Hrank. split.
  - unfold execute_search. rewrite Hm. cbn [Py.get].
    rewrite Hname. cbn [Py.bind]. rewrite Hrank. reflexivity.
  - intros x Hx.
    destruct (rank_cities_In _ _ _ _ _ Hrank Hx) as (city & _ & _ & Hs).
    destruct (score_city_inv _ _ _ Hs)
      as (temps & precips & t & p & Et & It & Ep & Ip & Hc & Ht & Hp & _).
    assert (H0 : month_0 tool_input = 0%Z) by (unfold month_0; now rewrite Hm).
    rewrite H0 in It, Ip. apply index_zero in It, Ip.
    exists temps, precips. rewrite Hc, Ht, Hp. auto.
Qed.

(** X21. A month outside -11..12 makes [execute_search] raise [IndexError]
    at the lookup of the month name, before any ranking: also for an empty
    catalog or one that is excluded as a whole, where [rank_cities] itself
    returns the empty list. *)
Theorem execute_search_month_out_of_range (tool_input : Prefs.t) :
  let month := Py.get (Prefs.travel_month tool_input) CURRENT_MONTH in
  ~ (-11 <= month <= 12)%Z ->
  execute_search CITIES CURRENT_MONTH format_2f str_num tool_input = Py.Raise Py.IndexError.
Proof.
  intros month H. unfold execute_search. fold month.
  rewrite index_raises; [reflexivity|].
  unfold index_ok. change (length MONTH_NAMES) with 12%nat. lia.
Qed.

Lemma format_results_returns (ranked : list Candidate.t) (month_name : string) :
  Forall printable ranked ->
  exists text,
    format_results_for_claude format_2f str_num ranked month_name = Py.Ok text.
Proof.
  intros H. unfold format_results_for_claude.
  destruct ranked as [|x l]; cbn [is_empty]; [eexists; reflexivity|].
  destruct (format_loop_returns format_2f str_num 1 (x :: l) H) as [blocks ->].
  cbn [Py.bind]. eexists. reflexivity.
Qed.

(** X22. For a month from 1 to 12 (given, or the current month when none
    is given) and a catalog whose cities have 12-entry arrays, a name and a
    country, [execute_search] raises nothing: it returns the text of the
    formatter for the ranking, headed by that month's name, and the
    no-match message when the ranking is empty. *)
Theorem execute_search_returns (tool_input : Prefs.t) :
  let month := Py.get (Prefs.travel_month tool_input) CURRENT_MONTH in
  (1 <= month <= 12)%Z ->
  Forall wf_city CITIES ->
  Forall (fun city => City.name city <> None /\ City.country city <> None) CITIES ->
  exists month_name ranked text,
    nth_error MONTH_NAMES (Z.to_nat (month - 1)) = Some month_name /\
    rank_cities CITIES tool_input top_n_default = Py.Ok ranked /\
    execute_search CITIES CURRENT_MONTH format_2f str_num tool_input = Py.Ok text /\
    format_results_for_claude format_2f str_num ranked month_name = Py.Ok text /\
    (ranked = [] -> text = no_match_message month_name).
Proof.
  intros month Hm Hwf Hnames.
  assert (Hname : exists month_name,
            nth_error MONTH_NAMES (Z.to_nat (month - 1)) = Some month_name /\
            Py.index MONTH_NAMES (month - 1) = Py.Ok month_name).
  { unfold Py.index.
    destruct (month - 1 <? 0)%Z eqn:E; [apply Z.ltb_lt in E; lia|]. rewrite E.
    destruct (nth_error MONTH_NAMES (Z.to_nat (month - 1))) as [name|] eqn:En.
    - now exists name.
    - apply nth_error_None in En. change (length MONTH_NAMES) with 12%nat in En. lia. }
  destruct Hname as (month_name & Hnth & Hidx).
  assert (Hm0 : (-12 <= month_0 tool_input < 12)%Z).
  { unfold month_0, month in *. destruct (Prefs.travel_month tool_input); cbn [Py.get] in *; lia. }
  destruct (rank_cities_returns CITIES tool_input top_n_default Hwf Hm0) as [ranked Hrank].
  assert (Hprint : Forall printable ranked).
  { apply Forall_forall. intros x Hx.
    destruct (rank_cities_In _ _ _ _ _ Hrank Hx) as (city & Hin & _ & Hs).
    destruct (score_city_inv _ _ _ Hs) as (_ & _ & _ & _ & _ & _ & _ & _ & Hc & _).
    unfold printable. rewrite Hc. rewrite Forall_forall in Hnames. now apply Hnames. }
  destruct (format_results_returns ranked month_name Hprint) as [text Htext].
  exists month_name, ranked, text.
  split; [exact Hnth|]. split; [exact Hrank|]. split; [|split; [exact Htext|]].
  - unfold execute_search. fold month. rewrite Hidx. cbn [Py.bind].
    rewrite Hrank. cbn [Py.bind]. exact Htext.
  - intros ->. unfold format_results_for_claude in Htext. cbn [is_empty] in Htext.
    apply Ok_inj in Htext. now subst text.
Qed.

End SearchProperties.

Lemma execute_search_default_month_witness :
  exists ranked,
    rank_cities [bangkok] no_month_prefs top_n_default = Py.Ok ranked /\
    execute_search [bangkok] 7 blank blank no_month_prefs
    = format_results_for_claude blank blank ranked "July".
Proof.
  eexists. split; [reflexivity|].
  apply (execute_search_default_month [bangkok] 7 blank blank no_month_prefs _ "July");
    reflexivity.
Defined.

Lemma execute_search_month_out_of_range_witness :
  execute_search [] 7 blank blank month_13_prefs = Py.Raise Py.IndexError /\
  rank_cities [] month_13_prefs top_n_default = Py.Ok [].
Proof.
  split; [|reflexivity].
  apply (execute_search_month_out_of_range [] 7 blank blank month_13_prefs).
  cbv. intros [_ H]. apply H. reflexivity.
Defined.

Lemma execute_search_returns_witness :
  exists text,
    execute_search catalog 7 blank blank january_prefs = Py.Ok text /\
    format_results_for_claude blank blank [bangkok_in_january] "January" = Py.Ok text.
Proof.
  destruct (execute_search_returns catalog 7 blank blank january_prefs)
    as (month_name & ranked & text & Hn & Hr & Hs & Hf & _).
  - cbv. split; congruence.
  - exact catalog_wf.
  - repeat constructor; discriminate.
  - injection Hn as <-. rewrite end_to_end_europe_excluded in Hr.
    apply Ok_inj in Hr. subst ranked. exists text. split; assumption.
Defined.

(** ** The agentic loop *)

Section AgentProperties.

Variable CITIES : list City.t.
Variable CURRENT_MONTH : Z.
Variables format_2f str_num : R -> string.
Variable api_exn : Type.
Variable stream : list message -> response + api_exn.

Lemma run_tools_spec (blocks : list block) (results : list tool_result) :
  run_tools CITIES CURRENT_MONTH format_2f str_num blocks = Py.Ok results ->
  Forall2
    (fun b r => exists id name input,
       b = ToolUseBlock id name input /\ tool_use_id r = id /\
       process_tool_call CITIES CURRENT_MONTH format_2f str_num name input
       = Py.Ok (result_content r))
    (filter is_tool_use blocks) results.
Proof.
  revert results. induction blocks as [|b blocks IH]; intros results H.
  - apply Ok_inj in H. subst. constructor.
  - destruct b as [text|id name input|type]; cbn [run_tools filter is_tool_use] in *.
    + now apply IH.
    + destruct (process_tool_call CITIES CURRENT_MONTH format_2f str_num name input)
        as [result|] eqn:Ep; [|discriminate].
      cbn [Py.bind] in H.
      destruct (run_tools CITIES CURRENT_MONTH format_2f str_num blocks) as [rs|];
        [|discriminate].
      cbn [Py.bind] in H. apply Ok_inj in H. subst results.
      constructor; [|now apply IH].
      exists id, name, input. auto.
    + now apply IH.
Qed.

(** X23. When the tools of a response all return, there is exactly one
    tool result per tool-use block, in the order of the blocks, carrying
    the block's id and the text the tool returned for the block's name and
    input; blocks of other types produce no result. *)
Theorem run_tools_pairs_results (blocks : list block) (results : list tool_result) :
  run_tools CITIES CURRENT_MONTH format_2f str_num blocks = Py.Ok results ->
  length results = length (filter is_tool_use blocks) /\
  Forall2
    (fun b r => exists id name input,
       b = ToolUseBlock id name input /\ tool_use_id r = id /\
       process_tool_call CITIES CURRENT_MONTH format_2f str_num name input
       = Py.Ok (result_content r))
    (filter is_tool_use blocks) results.
Proof.
  intros H. apply run_tools_spec in H. split; [|exact H].
  symmetry. exact (Forall2_length H).
Qed.

Lemma agentic_loop_appends (limit_message : string) (iterations : nat)
    (conversation : list message) :
  exists suffix,
    fst (agentic_loop CITIES CURRENT_MONTH format_2f str_num api_exn stream
           limit_message iterations conversation)
    = (conversation ++ suffix)%list /\
    (length suffix <= 2 * iterations)%nat /\
    Forall appended_by_turn suffix.
Proof.
  revert conversation. induction iterations as [|n IH]; intros conversation.
  - exists []. cbn. rewrite app_nil_r. repeat split; [lia | constructor].
  - cbn [agentic_loop]. destruct (stream conversation) as [r|e].
    + set (a := mk_message "assistant" (AssistantBlocks (content r))).
      assert (Ha : appended_by_turn a) by (left; split; [reflexivity | now eexists]).
      destruct (String.eqb (stop_reason r) "end_turn").
      * exists [a]. cbn [fst length]. repeat split; [lia | now constructor].
      * destruct (String.eqb (stop_reason r) "tool_use").
        -- destruct (run_tools CITIES CURRENT_MONTH format_2f str_num (content r))
             as [rs|e].
           ++ set (u := mk_message "user" (ToolResults rs)).
              destruct (IH ((conversation ++ [a]) ++ [u])%list) as (suffix & E & L & F).
              exists (a :: u :: suffix). rewrite E.
              rewrite <- !app_assoc. cbn [app length]. repeat split; [lia|].
              constructor; [exact Ha|]. constructor; [|exact F].
              right. split; [reflexivity | now eexists].
           ++ exists [a]. cbn [fst length]. repeat split; [lia | now constructor].
        -- destruct (IH (conversation ++ [a])%list) as (suffix & E & L & F).
           exists (a :: suffix). rewrite E. rewrite <- app_assoc. cbn [app length].
           repeat split; [lia | now constructor].
    + exists []. cbn [fst length]. rewrite app_nil_r. repeat split; [lia | constructor].
Qed.

(** X24. A turn only appends to the conversation: the earlier messages are
    kept as they are, at most 12 messages are added (6 rounds of one
    assistant message and one user message of tool results), whether the
    turn returns or raises. *)
Theorem run_agentic_turn_appends (conversation : list message) :
  (exists suffix,
     fst (run_agentic_turn CITIES CURRENT_MONTH format_2f str_num api_exn stream
            conversation) = (conversation ++ suffix)%list /\
     (length suffix <= 12)%nat /\ Forall appended_by_turn suffix) /\
  (exists suffix,
     fst (run_agentic_turn_app CITIES CURRENT_MONTH format_2f str_num api_exn stream
            conversation) = (conversation ++ suffix)%list /\
     (length suffix <= 12)%nat /\ Forall appended_by_turn suffix).
Proof.
  split; apply (agentic_loop_appends _ MAX_ITERATIONS).
Qed.



Lemma run_tools_skips (pre rest : list block) :
  forallb (fun b => negb (is_tool_use b)) pre = true ->
  run_tools CITIES CURRENT_MONTH format_2f str_num (pre ++ rest)
  = run_tools CITIES CURRENT_MONTH format_2f str_num rest.
Proof.
  induction pre as [|b pre IH]; intros H; [reflexivity|].
  cbn [forallb] in H. apply andb_true_iff in H. destruct H as [Hb H].
  destruct b; cbn [is_tool_use negb] in Hb; try discriminate; cbn [app run_tools];
    now apply IH.
Qed.

(** X26. When the first tool call of a response asks [search_destinations]
    for a month outside -11..12, the [IndexError] of the month-name lookup
    ends the turn: it is not caught, no tool result is appended, and the
    conversation is left ending with the assistant message that holds the
    tool call. *)
Theorem run_agentic_turn_tool_error (conversation : list message) (r : response)
    (pre post : list block) (id : string) (input : Prefs.t) :
  stream conversation = inl r ->
  stop_reason r = "tool_use"%string ->
  content r = (pre ++ ToolUseBlock id "search_destinations" input :: post)%list ->
  forallb (fun b => negb (is_tool_use b)) pre = true ->
  ~ (-11 <= Py.get (Prefs.travel_month input) CURRENT_MONTH <= 12)%Z ->
  run_agentic_turn CITIES CURRENT_MONTH format_2f str_num api_exn stream conversation
  = ((conversation ++ [mk_message "assistant" (AssistantBlocks (content r))])%list,
     Raised Py.IndexError).
Proof.
  intros Hs Hr Hc Hpre Hm. unfold run_agentic_turn, MAX_ITERATIONS.
  cbn [agentic_loop]. rewrite Hs, Hr. cbn [String.eqb Ascii.eqb Bool.eqb]. cbv iota.
  rewrite Hc at 1. rewrite run_tools_skips by assumption. cbn [run_tools].
  unfold process_tool_call. cbn [String.eqb Ascii.eqb Bool.eqb]. cbv iota.
  unfold execute_search. rewrite index_raises; [reflexivity|].
  unfold index_ok. change (length MONTH_NAMES) with 12%nat. lia.
Qed.

End AgentProperties.

Lemma run_tools_pairs_results_witness :
  run_tools catalog 7 blank blank unknown_tool_blocks
  = Py.Ok [mk_tool_result "toolu_1" "[Unknown tool: get_weather]"] /\
  length [mk_tool_result "toolu_1" "[Unknown tool: get_weather]"]
  = length (filter is_tool_use unknown_tool_blocks).
Proof.
  split; [reflexivity|].
  apply (run_tools_pairs_results catalog 7 blank blank unknown_tool_blocks).
  reflexivity.
Defined.


Lemma run_agentic_turn_tool_error_witness :
  run_agentic_turn catalog 7 blank blank unit month_13_stream opening
  = ((opening
      ++ [mk_message "assistant"
            (AssistantBlocks
               [TextBlock "Searching.";
                ToolUseBlock "toolu_1" "search_destinations" month_13_prefs])])%list,
     Raised Py.IndexError).
Proof.
  apply (run_agentic_turn_tool_error catalog 7 blank blank unit month_13_stream opening
           (mk_response
              [TextBlock "Searching.";
               ToolUseBlock "toolu_1" "search_destinations" month_13_prefs]
              "tool_use")
           [TextBlock "Searching."] [] "toolu_1" month_13_prefs);
    try reflexivity.
  cbv. intros [_ H]. apply H. reflexivity.
Defined.

(** ** The season label *)

Lemma score_city_season (preferences : Prefs.t) (city : City.t) (x : Candidate.t) :
  score_city preferences city = Py.Ok x ->
  MonthData.season (Candidate.month_data x)
  = season_label (month_0 preferences + 1)
      (Py.get (City.peak_months city) []) (Py.get (City.shoulder_months city) []).
Proof.
  unfold score_city. intros H.
  destruct (City.monthly_temp city) as [temps|]; [|discriminate].
  cbn [Py.item Py.bind] in H.
  destruct (Py.index temps (month_0 preferences)) as [t|]; [|discriminate].
  cbn [Py.bind] in H.
  destruct (City.monthly_precip city) as [precips|]; [|discriminate].
  cbn [Py.item Py.bind] in H.
  destruct (Py.index precips (month_0 preferences)) as [p|]; [|discriminate].
  cbn [Py.bind] in H. apply Ok_inj in H. now subst x.
Qed.

(** X27. The season label reported for a candidate names the season its
    crowd score was looked up with: the label (computed at the end of the
    loop body) and the crowd score (computed in [score_crowd]) classify the
    month in the same way. *)
Theorem season_label_matches_crowd (cities : list City.t) (preferences : Prefs.t)
    (top_n : Z) (out : list Candidate.t) (x : Candidate.t) :
  rank_cities cities preferences top_n = Py.Ok out -> In x out ->
  let city := Candidate.city x in
  let s := classify (month_0 preferences + 1)
             (Py.get (City.peak_months city) [])
             (Py.get (City.shoulder_months city) []) in
  MonthData.season (Candidate.month_data x)
  = match s with
    | peak => "peak season"
    | shoulder => "shoulder season"
    | off => "off season"
    end%string /\
  Scores.crowd (Candidate.scores x)
  = table_get (Py.get (Prefs.crowd_preference preferences) "any"%string) s.
Proof.
  intros H Hx city s.
  destruct (rank_cities_In _ _ _ _ _ H Hx) as (city' & _ & _ & Hs).
  pose proof (score_city_season _ _ _ Hs) as Hl.
  destruct (score_city_inv _ _ _ Hs)
    as (_ & _ & _ & _ & _ & _ & _ & _ & Hc & _ & _ & _ & _ & Ecrowd & _).
  fold city in Hc. subst city'. split.
  - rewrite Hl. unfold s, season_label, classify.
    destruct (Py.mem _ (Py.get (City.peak_months city) [])); [reflexivity|].
    destruct (Py.mem _ (Py.get (City.shoulder_months city) [])); reflexivity.
  - rewrite Ecrowd. reflexivity.
Qed.

Lemma season_label_matches_crowd_witness :
  MonthData.season (Candidate.month_data bangkok_in_january) = "off season"%string /\
  Scores.crowd (Candidate.scores bangkok_in_january) = table_get "off_peak" off.
Proof.
  exact (season_label_matches_crowd catalog january_prefs top_n_default
           [bangkok_in_january] bangkok_in_january end_to_end_europe_excluded
           (or_introl eq_refl)).
Defined.

(** ** Temperature scorer: the shape of the curve *)

(** X28. With both bounds given, among temperatures outside the range the
    score does not increase with the distance to the range, on either
    side. *)
Theorem score_temperature_decays_outside (lo hi c c' : R) :
  lo <= hi ->
  c < lo \/ hi < c ->
  c' < lo \/ hi < c' ->
  Rmax (lo - c) (c - hi) <= Rmax (lo - c') (c' - hi) ->
  score_temperature c' (Some lo) (Some hi) <= score_temperature c (Some lo) (Some hi).
Proof.
  intros H Hc Hc' Hd. rewrite !score_temperature_outside by assumption.
  apply out_of_range_score_antitone. split; [|exact Hd].
  destruct Hc; [eapply Rle_trans; [|apply Rmax_l] | eapply Rle_trans; [|apply Rmax_r]];
    lra.
Qed.

Lemma score_temperature_decays_outside_witness :
  score_temperature 12 (Some 20) (Some 30) <= score_temperature 33 (Some 20) (Some 30).
Proof.
  apply score_temperature_decays_outside; try lra.
  rewrite (Rmax_right (20 - 33)), (Rmax_left (20 - 12)) by lra. lra.
Defined.

